(** * IntersectionConstruction: construction of simplex-simplex intersections

    A shallow embedding of DOLFIN's [IntersectionConstruction.cpp]
    (geometry module): the dispatch layer [intersection], the low-level
    point intersectors, the segment-segment intersectors in 1D/2D/3D, the
    composite intersectors built by delegation, [_unique_points], and the
    superseded implementations kept at the end of the file.

    Modelling conventions

    - [double] is modelled by the rationals [Q]: arithmetic is exact, and
      the comparisons [>], [<], [==] of the source are the boolean tests
      [>?], [<?], [=?] below.  Rounding, infinities and NaN are not
      modelled; a quotient by zero is [0] in [Q], and no statement below
      depends on the value of such a quotient.  The concrete inputs used
      below are dyadic, so that the code takes the same branches on them
      in binary floating point.
    - [std::vector<T>] is [list T]; [push_back] appends at the end.
    - The collaborators that live in other translation units
      ([predicates.h], [CollisionPredicates], [GeometryTools], the constant
      [DOLFIN_EPS_LARGE]) are interfaces (type classes); the code is
      written against them, and reference instances are given separately.
    - [dolfin_error] never returns: it is the [Fatal] outcome of [Result].
    - [dolfin_assert] is compiled out of release builds and is not
      modelled; neither is the output under [#ifdef augustdebug].
    - What a function writes to [std::cout] is returned beside its
      result, as a list of lines. *)

From Stdlib Require Import QArith Qabs Qminmax ZArith List Bool String Lia Lqa.
From Stdlib Require Import Permutation Sorted.
From Stdlib Require Import Field Qfield.
Import ListNotations.

Local Open Scope Q_scope.

(* ------------------------------------------------------------------ *)
(** ** Scalars *)

Definition double : Type := Q.

Definition Qltb (a b : double) : bool := negb (Qle_bool b a).
Definition Qgtb (a b : double) : bool := Qltb b a.

Infix "<?" := Qltb (at level 70, no associativity) : Q_scope.
Infix ">?" := Qgtb (at level 70, no associativity) : Q_scope.
Infix "=?" := Qeq_bool (at level 70, no associativity) : Q_scope.

(* ------------------------------------------------------------------ *)
(** ** Point (dolfin/geometry/Point.h) *)

(** Modelled from the spec: the class [Point] of [dolfin/geometry/Point.h],
    "an ordered tuple of 1-3 real coordinates; equality is exact
    (component-wise)", with "vector arithmetic (add, subtract, scale, dot,
    cross, norm, squared distance)".  A [Point] always stores three
    coordinates; [Point(x)] and [Point(x, y)] fill the missing ones with
    zero. *)
Record Point : Type := mkPoint { x_ : double; y_ : double; z_ : double }.

Definition Point1 (x : double) : Point := mkPoint x 0 0.
Definition Point2 (x y : double) : Point := mkPoint x y 0.

(** [p[i]]: coordinate [i].  The source asserts [i < 3] in debug builds and
    is undefined beyond; the model returns [0] there. *)
Definition coord (p : Point) (i : nat) : double :=
  match i with
  | O => x_ p
  | S O => y_ p
  | S (S O) => z_ p
  | _ => 0
  end.

(** [operator==]: exact, component-wise. *)
Definition Point_eqb (p q : Point) : bool :=
  (x_ p =? x_ q) && (y_ p =? y_ q) && (z_ p =? z_ q).

Definition Point_add (p q : Point) : Point :=
  mkPoint (x_ p + x_ q) (y_ p + y_ q) (z_ p + z_ q).
Definition Point_sub (p q : Point) : Point :=
  mkPoint (x_ p - x_ q) (y_ p - y_ q) (z_ p - z_ q).
Definition Point_scale (a : double) (p : Point) : Point :=
  mkPoint (a * x_ p) (a * y_ p) (a * z_ p).
Definition dot (p q : Point) : double :=
  x_ p * x_ q + y_ p * y_ q + z_ p * z_ q.
Definition cross (p q : Point) : Point :=
  mkPoint (y_ p * z_ q - z_ p * y_ q)
          (z_ p * x_ q - x_ p * z_ q)
          (x_ p * y_ q - y_ p * x_ q).
Definition squared_norm (p : Point) : double := dot p p.
Definition squared_distance (p q : Point) : double :=
  let dx := x_ q - x_ p in
  let dy := y_ q - y_ p in
  let dz := z_ q - z_ p in
  dx * dx + dy * dy + dz * dz.

Declare Scope point_scope.
Delimit Scope point_scope with P.
Bind Scope point_scope with Point.
Infix "+" := Point_add : point_scope.
Infix "-" := Point_sub : point_scope.
Infix "*" := Point_scale : point_scope.
Infix "==" := Point_eqb (at level 70, no associativity) : point_scope.

(* ------------------------------------------------------------------ *)
(** ** External collaborators *)

(** [predicates.h]: sign-exact orientation predicates. *)
Class Predicates : Type := {
  orient1d : double -> double -> double -> double;
  orient2d : Point -> Point -> Point -> double;
  orient3d : Point -> Point -> Point -> Point -> double
}.

(** [CollisionPredicates.h]: the containment and collision tests used by
    the construction code. *)
Class CollisionPredicates : Type := {
  collides_segment_point_1d : double -> double -> double -> bool;
  collides_segment_point_2d : Point -> Point -> Point -> bool;
  collides_segment_point_3d : Point -> Point -> Point -> bool;
  collides_triangle_point_2d : Point -> Point -> Point -> Point -> bool;
  collides_triangle_point_3d : Point -> Point -> Point -> Point -> bool;
  collides_tetrahedron_point_3d :
    Point -> Point -> Point -> Point -> Point -> bool;
  collides_segment_segment_3d : Point -> Point -> Point -> Point -> bool
}.

(** [GeometryTools.h]: projections and major axes. *)
Class GeometryTools : Type := {
  cross_product : Point -> Point -> Point -> Point;
  major_axis_2d : Point -> nat;
  major_axis_3d : Point -> nat;
  project_to_axis_2d : Point -> nat -> double;
  project_to_plane_3d : Point -> nat -> Point
}.

(** [dolfin/common/constants.h]. *)
Class Constants : Type := { DOLFIN_EPS_LARGE : double }.

(* ------------------------------------------------------------------ *)
(** ** Outcome of a call that may end in [dolfin_error] *)

(** Modelled from the spec: [dolfin_error] of [dolfin/log], which "must
    abort with a descriptive error": the record holds the location, the
    task and the reason it is called with; the call does not return. *)
Record dolfin_error : Type := mk_dolfin_error {
  err_location : string;
  err_task : string;
  err_reason : string;        (* printf-style format *)
  err_args : list Z           (* the values substituted for the [%d]s *)
}.

Inductive Result (A : Type) : Type :=
| Ok (a : A)
| Fatal (e : dolfin_error).
Arguments Ok {A} a.
Arguments Fatal {A} e.

(** A block that either executes a [return] or falls through to the next
    statement. *)
Definition orelse {A : Type} (c1 c2 : option A) : option A :=
  match c1 with
  | Some r => Some r
  | None => c2
  end.
Infix "<|>" := orelse (at level 61, left associativity).

(** [std::size_t] arithmetic wraps modulo 2^64. *)
Definition size_t_wrap (n : Z) : Z := (n mod 2 ^ 64)%Z.

(* ------------------------------------------------------------------ *)
(** ** Private helpers of the class *)

(** Modelled from the spec: [_add] is declared in
    [IntersectionConstruction.h]; "accumulates all returned points". *)
Definition _add (points _points : list Point) : list Point :=
  points ++ _points.

(** Modelled from the spec: [add_if_equal] is declared in
    [IntersectionConstruction.h]; it "detects and records
    endpoint-to-endpoint coincidences without double-counting, using boolean
    already-matched flags per endpoint".  When [p] and [q] differ nothing
    happens; when they are equal both flags are raised and [p] is recorded
    unless one of the two end points was matched before. *)
Definition add_if_equal {T : Type} (eqb : T -> T -> bool)
    (points : list T) (p q : T) (pi qi : bool) : list T * bool * bool :=
  if negb (eqb p q) then (points, pi, qi)
  else ((if negb pi && negb qi then points ++ [p] else points), true, true).

(** [std::sort] with comparator [lt], as run on the short arrays of this
    file: insertion of each element in turn into the sorted prefix, behind
    the elements that are not greater. *)
Fixpoint sort_insert {T : Type} (lt : T -> T -> bool) (x : T) (l : list T)
  : list T :=
  match l with
  | [] => [x]
  | y :: l' => if lt x y then x :: y :: l' else y :: sort_insert lt x l'
  end.

Definition std_sort {T : Type} (lt : T -> T -> bool) (l : list T) : list T :=
  fold_left (fun acc x => sort_insert lt x acc) l [].

Definition origin : Point := mkPoint 0 0 0.

(** [v[i]] on a vector; every use in this file is in range. *)
Definition at_ (v : list Point) (i : nat) : Point := nth i v origin.

(** [_unique_points]: element [i] is kept iff no later element equals it. *)
Fixpoint _unique_points (input_points : list Point) : list Point :=
  match input_points with
  | [] => []
  | x :: rest =>
      let found := existsb (fun y => (x == y)%P) rest in
      if negb found then x :: _unique_points rest else _unique_points rest
  end.

(* ------------------------------------------------------------------ *)
(** ** The construction functions *)

Section IntersectionConstruction.

Context {PR : Predicates} {CP : CollisionPredicates}
        {GT : GeometryTools} {CS : Constants}.

(** *** Low-level intersection construction functions *)




Definition intersection_segment_point_1d (p0 p1 q0 : double) : list double :=
  if collides_segment_point_1d p0 p1 q0 then [q0] else [].

Definition intersection_segment_point_2d (p0 p1 q0 : Point) : list Point :=
  if collides_segment_point_2d p0 p1 q0 then [q0] else [].

Definition intersection_segment_point_3d (p0 p1 q0 : Point) : list Point :=
  if collides_segment_point_3d p0 p1 q0 then [q0] else [].

Definition intersection_triangle_point_2d (p0 p1 p2 q0 : Point)
  : list Point :=
  if collides_triangle_point_2d p0 p1 p2 q0 then [q0] else [].

Definition intersection_triangle_point_3d (p0 p1 p2 q0 : Point)
  : list Point :=
  if collides_triangle_point_3d p0 p1 p2 q0 then [q0] else [].

Definition intersection_tetrahedron_point_3d (p0 p1 p2 p3 q0 : Point)
  : list Point :=
  if collides_tetrahedron_point_3d p0 p1 p2 p3 q0 then [q0] else [].

(** *** Segment-segment, 1D *)

Definition intersection_segment_segment_1d (p0 p1 q0 q1 : double)
  : list double :=
  (* The list of points (convex hull) *)
  let points : list double := [] in
  (* Compute orientation of segment end points wrt other segment *)
  let p0o := orient1d q0 q1 p0 in
  let p1o := orient1d q0 q1 p1 in
  let q0o := orient1d p0 p1 q0 in
  let q1o := orient1d p0 p1 q1 in
  (* Compute total orientation of segments wrt other segment *)
  let po := p0o * p1o in
  let qo := q0o * q1o in
  (* Special case: no collision *)
  if (po >? 0) || (qo >? 0) then points
  else
    (* Indicators to avoid duplicates *)
    let '(p0i, p1i, q0i, q1i) := (false, false, false, false) in
    (* Special case: end point collision *)
    let '(points, p0i, q0i) := add_if_equal Qeq_bool points p0 q0 p0i q0i in
    let '(points, p0i, q1i) := add_if_equal Qeq_bool points p0 q1 p0i q1i in
    let '(points, p1i, q0i) := add_if_equal Qeq_bool points p1 q0 p1i q0i in
    let '(points, p1i, q1i) := add_if_equal Qeq_bool points p1 q1 p1i q1i in
    (* Main case: interior collisions *)
    let points := if negb p0i && (p0o =? 0) then points ++ [p0] else points in
    let points := if negb p1i && (p1o =? 0) then points ++ [p1] else points in
    let points := if negb q0i && (q0o =? 0) then points ++ [q0] else points in
    let points := if negb q1i && (q1o =? 0) then points ++ [q1] else points in
    points.

(** *** Segment-segment, 2D *)

(** The block guarded by [po == 0. or qo == 0.]: possible end point
    collisions. *)
Definition segment_segment_2d_endpoints
    (p0 p1 q0 q1 : Point) (p0o p1o q0o q1o po qo : double)
    (points : list Point) : list Point :=
  (* Indicators to avoid duplicates *)
  let '(p0i, p1i, q0i, q1i) := (false, false, false, false) in
  (* Check point-point collisions *)
  let '(points, p0i, q0i) := add_if_equal Point_eqb points p0 q0 p0i q0i in
  let '(points, p0i, q1i) := add_if_equal Point_eqb points p0 q1 p0i q1i in
  let '(points, p1i, q0i) := add_if_equal Point_eqb points p1 q0 p1i q0i in
  let '(points, p1i, q1i) := add_if_equal Point_eqb points p1 q1 p1i q1i in
  (* Check end points of first segment *)
  let points :=
    if po =? 0 then
      (* Project points to major axis of second segment *)
      let major_axis := major_axis_2d (q1 - q0)%P in
      let P0 := project_to_axis_2d p0 major_axis in
      let P1 := project_to_axis_2d p1 major_axis in
      let Q0 := project_to_axis_2d q0 major_axis in
      let Q1 := project_to_axis_2d q1 major_axis in
      (* Check collisions *)
      let points :=
        if negb p0i && (p0o =? 0) && collides_segment_point_1d Q0 Q1 P0
        then points ++ [p0] else points in
      let points :=
        if negb p1i && (p1o =? 0) && collides_segment_point_1d Q0 Q1 P1
        then points ++ [p1] else points in
      points
    else points in
  (* Check end points of second segment *)
  let points :=
    if qo =? 0 then
      (* Project points to major axis of first segment *)
      let major_axis := major_axis_2d (p1 - p0)%P in
      let P0 := project_to_axis_2d p0 major_axis in
      let P1 := project_to_axis_2d p1 major_axis in
      let Q0 := project_to_axis_2d q0 major_axis in
      let Q1 := project_to_axis_2d q1 major_axis in
      (* Check collisions *)
      let points :=
        if negb q0i && (q0o =? 0) && collides_segment_point_1d P0 P1 Q0
        then points ++ [q0] else points in
      let points :=
        if negb q1i && (q1o =? 0) && collides_segment_point_1d P0 P1 Q1
        then points ++ [q1] else points in
      points
    else points in
  points.

(** The block "Compute intersection point based on shortest segment": the
    values of [num], [den] and [x] after the [if]/[else]. *)
Definition segment_segment_2d_shortest
    (p0 p1 q0 q1 : Point) (p0o q0o : double) : double * double * Point :=
  if squared_distance p0 p1 <? squared_distance q0 q1 then
    let num := p0o in
    let den := (x_ p1 - x_ p0) * (y_ q1 - y_ q0)
             - (y_ p1 - y_ p0) * (x_ q1 - x_ q0) in
    let x := (p0 + (num / den) * (p1 - p0))%P in
    (num, den, x)
  else
    let num := q0o in
    let den := (x_ q1 - x_ q0) * (y_ p1 - y_ p0)
             - (y_ q1 - y_ q0) * (x_ p1 - x_ p0) in
    let x := (q0 + (num / den) * (q1 - q0))%P in
    (num, den, x).

(** The block "almost collinear segments": the representative point. *)
Definition segment_segment_2d_collinear_point (p0 p1 q0 q1 : Point) : Point :=
  (* Compute major axis *)
  let major_axis := major_axis_2d (p1 - p0)%P in
  (* Sort the points along major axis *)
  let _points :=
    std_sort (fun a b => coord a major_axis <? coord b major_axis)
             [p0; p1; q0; q1] in
  (* Compute midpoint *)
  (0.5 * (at_ _points 1 + at_ _points 2))%P.

Definition intersection_segment_segment_2d (p0 p1 q0 q1 : Point)
  : list Point :=
  (* The list of points (convex hull) *)
  let points : list Point := [] in
  (* Compute orientation of segment end points wrt other segment *)
  let p0o := orient2d q0 q1 p0 in
  let p1o := orient2d q0 q1 p1 in
  let q0o := orient2d p0 p1 q0 in
  let q1o := orient2d p0 p1 q1 in
  (* Compute total orientation of segments wrt other segment *)
  let po := p0o * p1o in
  let qo := q0o * q1o in
  (* Special case: no collision *)
  if (po >? 0) || (qo >? 0) then points
  (* Special case: *possible* end point collision(s) *)
  else if (po =? 0) || (qo =? 0) then
    segment_segment_2d_endpoints p0 p1 q0 q1 p0o p1o q0o q1o po qo points
  else
    (* Compute intersection point based on shortest segment *)
    let '(num, den, x) := segment_segment_2d_shortest p0 p1 q0 q1 p0o q0o in
    (* Special case: almost collinear segments *)
    if Qabs (den * den) <? DOLFIN_EPS_LARGE * Qabs num then
      let x := segment_segment_2d_collinear_point p0 p1 q0 q1 in
      let points := points ++ [x] in
      points
    else
      (* Main case: add intersection point *)
      let points := points ++ [x] in
      _unique_points points.

(** *** Segment-segment, 3D *)

Definition intersection_segment_segment_3d (p0 p1 q0 q1 : Point)
  : list Point :=
  (* The list of points (convex hull) *)
  let points : list Point := [] in
  (* Avoid some unnecessary computations *)
  if negb (collides_segment_segment_3d p0 p1 q0 q1) then points
  (* Check if the segment is actually a point *)
  else if (p0 == p1)%P && collides_segment_point_3d q0 q1 p0
  then points ++ [p0]
  else if (q0 == q1)%P && collides_segment_point_3d p0 p1 q0
  then points ++ [q0]
  else
    (* First test points to match procedure of
       _collides_segment_segment_3d *)
    let points :=
      if collides_segment_point_3d q0 q1 p0 then points ++ [p0] else points in
    let points :=
      if collides_segment_point_3d q0 q1 p1 then points ++ [p1] else points in
    let points :=
      if collides_segment_point_3d p0 p1 q0 then points ++ [q0] else points in
    let points :=
      if collides_segment_point_3d p0 p1 q1 then points ++ [q1] else points in
    (* Now we may have found all the intersections *)
    if Nat.eqb (List.length points) 1 then points
    else if Nat.ltb 1 (List.length points) then _unique_points points
    else
      (* Follow Shewchuk Lecture Notes on Geometric Robustness *)
      let w := (p0 - p1)%P in
      let v := (q0 - q1)%P in
      let u := (p1 - q1)%P in
      let wv := cross w v in
      let vu := cross v u in
      let den := squared_norm wv in
      let num := dot wv vu in
      let points :=
        if (den =? 0) && (num =? 0) then points
        else if (den =? 0) && negb (num =? 0) then points
        else if negb (den =? 0) then
          (* If fraction is close to 1, swap p0 and p1 *)
          let x0 :=
            if Qabs (num / den - 1) <? DOLFIN_EPS_LARGE then
              let u_swapped := (p0 - q1)%P in
              let vu_swapped := cross v u_swapped in
              let num_swapped := - dot wv vu_swapped in
              (p0 + (num_swapped / den) * (p1 - p0))%P
            else
              (p1 + (num / den) * (p0 - p1))%P in
          points ++ [x0]
        else points in
      _unique_points points.

(** *** Triangle-segment *)

Definition intersection_triangle_segment_2d (p0 p1 p2 q0 q1 : Point)
  : list Point :=
  let points : list Point := [] in
  (* Add point intersections (2) *)
  let points := _add points (intersection_triangle_point_2d p0 p1 p2 q0) in
  let points := _add points (intersection_triangle_point_2d p0 p1 p2 q1) in
  (* Add segment-segment intersections (3) *)
  let points := _add points (intersection_segment_segment_2d p0 p1 q0 q1) in
  let points := _add points (intersection_segment_segment_2d p0 p2 q0 q1) in
  let points := _add points (intersection_segment_segment_2d p1 p2 q0 q1) in
  _unique_points points.

(** Everything after the projections is commented out in the source, so
    the function ends in [return points] with [points] still empty. *)
Definition intersection_triangle_segment_3d (p0 p1 p2 q0 q1 : Point)
  : list Point :=
  (* The list of points (convex hull) *)
  let points : list Point := [] in
  (* Compute orientation of segment end points wrt triangle plane *)
  let q0o := orient3d p0 p1 p2 q0 in
  let q1o := orient3d p0 p1 p2 q1 in
  (* Compute total orientation of segment wrt triangle plane *)
  let qo := q0o * q1o in
  (* Special case: no collision *)
  if qo >? 0 then points
  else
    (* Compute triangle plane normal and major axis *)
    let n := cross_product p0 p1 p2 in
    let major_axis := major_axis_3d n in
    (* Project points to major axis plane *)
    let P0 := project_to_plane_3d p0 major_axis in
    let P1 := project_to_plane_3d p1 major_axis in
    let P2 := project_to_plane_3d p2 major_axis in
    let Q0 := project_to_plane_3d q0 major_axis in
    let Q1 := project_to_plane_3d q1 major_axis in
    points.

(** *** Tetrahedron-segment (no final [_unique_points] in the source) *)

Definition intersection_tetrahedron_segment_3d (p0 p1 p2 p3 q0 q1 : Point)
  : list Point :=
  let points : list Point := [] in
  (* Add point intersections *)
  let points :=
    _add points (intersection_tetrahedron_point_3d p0 p1 p2 p3 q0) in
  let points :=
    _add points (intersection_tetrahedron_point_3d p0 p1 p2 p3 q1) in
  (* Add triangle-segment intersections (4) *)
  let points := _add points (intersection_triangle_segment_3d p0 p1 p2 q0 q1) in
  let points := _add points (intersection_triangle_segment_3d p0 p1 p3 q0 q1) in
  let points := _add points (intersection_triangle_segment_3d p0 p2 p3 q0 q1) in
  let points := _add points (intersection_triangle_segment_3d p1 p2 p3 q0 q1) in
  points.

(** *** Intersections with triangles and tetrahedra: computed by delegation

    A composite intersector is a sequence of [_add(points, f(...))]
    statements starting from the empty vector; [add_all] runs such a
    sequence in order. *)
Definition add_all (calls : list (list Point)) : list Point :=
  fold_left _add calls [].

Definition intersection_triangle_triangle_2d (p0 p1 p2 q0 q1 q2 : Point)
  : list Point :=
  let points := add_all
    [ (* Add point intersections (3 + 3 = 6) *)
      intersection_triangle_point_2d p0 p1 p2 q0;
      intersection_triangle_point_2d p0 p1 p2 q1;
      intersection_triangle_point_2d p0 p1 p2 q2;
      intersection_triangle_point_2d q0 q1 q2 p0;
      intersection_triangle_point_2d q0 q1 q2 p1;
      intersection_triangle_point_2d q0 q1 q2 p2;
      (* Add segment-segment intersections (3 x 3 = 9) *)
      intersection_segment_segment_2d p0 p1 q0 q1;
      intersection_segment_segment_2d p0 p1 q0 q2;
      intersection_segment_segment_2d p0 p1 q1 q2;
      intersection_segment_segment_2d p0 p2 q0 q1;
      intersection_segment_segment_2d p0 p2 q0 q2;
      intersection_segment_segment_2d p0 p2 q1 q2;
      intersection_segment_segment_2d p1 p2 q0 q1;
      intersection_segment_segment_2d p1 p2 q0 q2;
      intersection_segment_segment_2d p1 p2 q1 q2 ] in
  _unique_points points.

Definition intersection_triangle_triangle_3d (p0 p1 p2 q0 q1 q2 : Point)
  : list Point :=
  let points := add_all
    [ (* Add point intersections (3 + 3 = 6) *)
      intersection_triangle_point_3d p0 p1 p2 q0;
      intersection_triangle_point_3d p0 p1 p2 q1;
      intersection_triangle_point_3d p0 p1 p2 q2;
      intersection_triangle_point_3d q0 q1 q2 p0;
      intersection_triangle_point_3d q0 q1 q2 p1;
      intersection_triangle_point_3d q0 q1 q2 p2;
      (* Add triangle-segment intersections (3 + 3 = 6) *)
      intersection_triangle_segment_3d p0 p1 p2 q0 q1;
      intersection_triangle_segment_3d p0 p1 p2 q0 q2;
      intersection_triangle_segment_3d p0 p1 p2 q1 q2;
      intersection_triangle_segment_3d q0 q1 q2 p0 p1;
      intersection_triangle_segment_3d q0 q1 q2 p0 p2;
      intersection_triangle_segment_3d q0 q1 q2 p1 p2 ] in
  _unique_points points.

Definition intersection_tetrahedron_triangle_3d
    (p0 p1 p2 p3 q0 q1 q2 : Point) : list Point :=
  let points := add_all
    [ (* Add point intersections (3 + 4 = 7) *)
      intersection_tetrahedron_point_3d p0 p1 p2 p3 q0;
      intersection_tetrahedron_point_3d p0 p1 p2 p3 q1;
      intersection_tetrahedron_point_3d p0 p1 p2 p3 q2;
      intersection_triangle_point_3d q0 q1 q2 p0;
      intersection_triangle_point_3d q0 q1 q2 p1;
      intersection_triangle_point_3d q0 q1 q2 p2;
      intersection_triangle_point_3d q0 q1 q2 p3;
      (* Add triangle-segment intersections (4 x 3 + 1 x 6 = 18) *)
      intersection_triangle_segment_3d p0 p1 p2 q0 q1;
      intersection_triangle_segment_3d p0 p1 p2 q0 q2;
      intersection_triangle_segment_3d p0 p1 p2 q1 q2;
      intersection_triangle_segment_3d p0 p1 p3 q0 q1;
      intersection_triangle_segment_3d p0 p1 p3 q0 q2;
      intersection_triangle_segment_3d p0 p1 p3 q1 q2;
      intersection_triangle_segment_3d p0 p2 p3 q0 q1;
      intersection_triangle_segment_3d p0 p2 p3 q0 q2;
      intersection_triangle_segment_3d p0 p2 p3 q1 q2;
      intersection_triangle_segment_3d p1 p2 p3 q0 q1;
      intersection_triangle_segment_3d p1 p2 p3 q0 q2;
      intersection_triangle_segment_3d p1 p2 p3 q1 q2;
      intersection_triangle_segment_3d q0 q1 q2 p0 p1;
      intersection_triangle_segment_3d q0 q1 q2 p0 p2;
      intersection_triangle_segment_3d q0 q1 q2 p0 p3;
      intersection_triangle_segment_3d q0 q1 q2 p1 p2;
      intersection_triangle_segment_3d q0 q1 q2 p1 p3;
      intersection_triangle_segment_3d q0 q1 q2 p2 p3 ] in
  _unique_points points.

(** The eight vertex-containment calls of the tetrahedron-tetrahedron
    intersector, in source order. *)
Definition tetrahedron_tetrahedron_point_calls
    (p0 p1 p2 p3 q0 q1 q2 q3 : Point) : list (list Point) :=
  [ intersection_tetrahedron_point_3d p0 p1 p2 p3 q0;
    intersection_tetrahedron_point_3d p0 p1 p2 p3 q1;
    intersection_tetrahedron_point_3d p0 p1 p2 p3 q2;
    intersection_tetrahedron_point_3d p0 p1 p2 p3 q3;
    intersection_tetrahedron_point_3d q0 q1 q2 q3 p0;
    intersection_tetrahedron_point_3d q0 q1 q2 q3 p1;
    intersection_tetrahedron_point_3d q0 q1 q2 q3 p2;
    intersection_tetrahedron_point_3d q0 q1 q2 q3 p3 ].

(** The 48 triangle-segment calls of the tetrahedron-tetrahedron
    intersector, in source order. *)
Definition tetrahedron_tetrahedron_segment_calls
    (p0 p1 p2 p3 q0 q1 q2 q3 : Point) : list (list Point) :=
  [
    intersection_triangle_segment_3d p0 p1 p2 q0 q1;
    intersection_triangle_segment_3d p0 p1 p2 q0 q2;
    intersection_triangle_segment_3d p0 p1 p2 q0 q3;
    intersection_triangle_segment_3d p0 p1 p2 q1 q2;
    intersection_triangle_segment_3d p0 p1 p2 q1 q3;
    intersection_triangle_segment_3d p0 p1 p2 q2 q3;
    intersection_triangle_segment_3d p0 p1 p3 q0 q1;
    intersection_triangle_segment_3d p0 p1 p3 q0 q2;
    intersection_triangle_segment_3d p0 p1 p3 q0 q3;
    intersection_triangle_segment_3d p0 p1 p3 q1 q2;
    intersection_triangle_segment_3d p0 p1 p3 q1 q3;
    intersection_triangle_segment_3d p0 p1 p3 q2 q3;
    intersection_triangle_segment_3d p0 p2 p3 q0 q1;
    intersection_triangle_segment_3d p0 p2 p3 q0 q2;
    intersection_triangle_segment_3d p0 p2 p3 q0 q3;
    intersection_triangle_segment_3d p0 p2 p3 q1 q2;
    intersection_triangle_segment_3d p0 p2 p3 q1 q3;
    intersection_triangle_segment_3d p0 p2 p3 q2 q3;
    intersection_triangle_segment_3d p1 p2 p3 q0 q1;
    intersection_triangle_segment_3d p1 p2 p3 q0 q2;
    intersection_triangle_segment_3d p1 p2 p3 q0 q3;
    intersection_triangle_segment_3d p1 p2 p3 q1 q2;
    intersection_triangle_segment_3d p1 p2 p3 q1 q3;
    intersection_triangle_segment_3d p1 p2 p3 q2 q3;
    intersection_triangle_segment_3d q0 q1 q2 p0 p1;
    intersection_triangle_segment_3d q0 q1 q2 p0 p2;
    intersection_triangle_segment_3d q0 q1 q2 p0 p3;
    intersection_triangle_segment_3d q0 q1 q2 p1 p2;
    intersection_triangle_segment_3d q0 q1 q2 p1 p3;
    intersection_triangle_segment_3d q0 q1 q2 p2 p3;
    intersection_triangle_segment_3d q0 q1 q3 p0 p1;
    intersection_triangle_segment_3d q0 q1 q3 p0 p2;
    intersection_triangle_segment_3d q0 q1 q3 p0 p3;
    intersection_triangle_segment_3d q0 q1 q3 p1 p2;
    intersection_triangle_segment_3d q0 q1 q3 p1 p3;
    intersection_triangle_segment_3d q0 q1 q3 p2 p3;
    intersection_triangle_segment_3d q0 q2 q3 p0 p1;
    intersection_triangle_segment_3d q0 q2 q3 p0 p2;
    intersection_triangle_segment_3d q0 q2 q3 p0 p3;
    intersection_triangle_segment_3d q0 q2 q3 p1 p2;
    intersection_triangle_segment_3d q0 q2 q3 p1 p3;
    intersection_triangle_segment_3d q0 q2 q3 p2 p3;
    intersection_triangle_segment_3d q1 q2 q3 p0 p1;
    intersection_triangle_segment_3d q1 q2 q3 p0 p2;
    intersection_triangle_segment_3d q1 q2 q3 p0 p3;
    intersection_triangle_segment_3d q1 q2 q3 p1 p2;
    intersection_triangle_segment_3d q1 q2 q3 p1 p3;
    intersection_triangle_segment_3d q1 q2 q3 p2 p3 ].

Definition intersection_tetrahedron_tetrahedron_3d
    (p0 p1 p2 p3 q0 q1 q2 q3 : Point) : list Point :=
  let points := add_all
    ( (* Add point intersections (4 + 4 = 8) *)
      tetrahedron_tetrahedron_point_calls p0 p1 p2 p3 q0 q1 q2 q3 ++
      (* Add triangle-segment intersections (4 x 6 + 4 x 6 = 48) *)
      tetrahedron_tetrahedron_segment_calls p0 p1 p2 p3 q0 q1 q2 q3 ) in
  _unique_points points.

(** *** High-level intersection construction functions *)

(** [switch (gdim)] with some of the labels 1, 2, 3; a missing label
    leaves the [switch] without returning. *)
Definition switch_gdim (gdim : Z)
    (case1 case2 case3 : option (list Point)) : option (list Point) :=
  if (gdim =? 1)%Z then case1
  else if (gdim =? 2)%Z then case2
  else if (gdim =? 3)%Z then case3
  else None.

Definition intersection (p q : list Point) (gdim : Z)
  : Result (list Point) :=
  (* Get topological dimensions *)
  let d0 := size_t_wrap (Z.of_nat (List.length p) - 1) in
  let d1 := size_t_wrap (Z.of_nat (List.length q) - 1) in
  (* Pick correct specialized implementation *)
  let returned :=
    ( (* segment - segment *)
      if (d0 =? 1)%Z && (d1 =? 1)%Z then
        switch_gdim gdim
          (* This case requires special handling to convert
             Point <--> double *)
          (Some (map Point1
                   (intersection_segment_segment_1d
                      (coord (at_ p 0) 0) (coord (at_ p 1) 0)
                      (coord (at_ q 0) 0) (coord (at_ q 1) 0))))
          (Some (intersection_segment_segment_2d
                   (at_ p 0) (at_ p 1) (at_ q 0) (at_ q 1)))
          (Some (intersection_segment_segment_3d
                   (at_ p 0) (at_ p 1) (at_ q 0) (at_ q 1)))
      (* segment - triangle *)
      else if (d0 =? 1)%Z && (d1 =? 2)%Z then
        switch_gdim gdim
          None
          (Some (intersection_triangle_segment_2d
                   (at_ q 0) (at_ q 1) (at_ q 2) (at_ p 0) (at_ p 1)))
          (Some (intersection_triangle_segment_3d
                   (at_ q 0) (at_ q 1) (at_ q 2) (at_ p 0) (at_ p 1)))
      (* triangle - segment *)
      else if (d0 =? 2)%Z && (d1 =? 1)%Z then
        switch_gdim gdim
          None
          (Some (intersection_triangle_segment_2d
                   (at_ p 0) (at_ p 1) (at_ p 2) (at_ q 0) (at_ q 1)))
          (Some (intersection_triangle_segment_3d
                   (at_ p 0) (at_ p 1) (at_ p 2) (at_ q 0) (at_ q 1)))
      (* triangle - triangle *)
      else if (d0 =? 2)%Z && (d1 =? 2)%Z then
        switch_gdim gdim
          None
          (Some (intersection_triangle_triangle_2d
                   (at_ p 0) (at_ p 1) (at_ p 2)
                   (at_ q 0) (at_ q 1) (at_ q 2)))
          (Some (intersection_triangle_triangle_3d
                   (at_ p 0) (at_ p 1) (at_ p 2)
                   (at_ q 0) (at_ q 1) (at_ q 2)))
      else None )
    <|>
    ( (* triangle - tetrahedron *)
      if (d0 =? 2)%Z && (d1 =? 3)%Z then
        switch_gdim gdim None None
          (Some (intersection_tetrahedron_triangle_3d
                   (at_ q 0) (at_ q 1) (at_ q 2) (at_ q 3)
                   (at_ p 0) (at_ p 1) (at_ p 2)))
      else None )
    <|>
    ( (* tetrahedron - triangle *)
      if (d0 =? 3)%Z && (d1 =? 2)%Z then
        switch_gdim gdim None None
          (Some (intersection_tetrahedron_triangle_3d
                   (at_ p 0) (at_ p 1) (at_ p 2) (at_ p 3)
                   (at_ q 0) (at_ q 1) (at_ q 2)))
      else None )
    <|>
    ( (* tetrahedron - tetrahedron *)
      if (d0 =? 3)%Z && (d1 =? 3)%Z then
        switch_gdim gdim None None
          (Some (intersection_tetrahedron_tetrahedron_3d
                   (at_ p 0) (at_ p 1) (at_ p 2) (at_ p 3)
                   (at_ q 0) (at_ q 1) (at_ q 2) (at_ q 3)))
      else None ) in
  match returned with
  | Some points => Ok points
  | None =>
      (* We should not reach this point *)
      Fatal (mk_dolfin_error
               "IntersectionConstruction.cpp"
               "compute intersection"
               "Not implemented for dimensions %d / %d and geometric dimension %d"
               [d0; d1; gdim])
  end.

(** Modelled from the spec: [MeshEntity], [Mesh] and [MeshGeometry] of
    [dolfin/mesh], the "mesh geometry accessor providing vertex coordinates
    by index"; only the accessors used by the overload are modelled. *)
Record MeshGeometry : Type := mkMeshGeometry {
  geometry_dim : Z;                 (* [dim()] *)
  geometry_point : nat -> Point     (* [point(i)] *)
}.

Record Mesh : Type := mkMesh { geometry : MeshGeometry }.

Record MeshEntity : Type := mkMeshEntity {
  mesh : Mesh;
  dim : nat;                        (* topological dimension *)
  entities_0 : nat -> nat           (* [entities(0)[i]]: vertex indices *)
}.

Definition intersection_entities (entity_0 entity_1 : MeshEntity)
  : Result (list Point) :=
  (* Get data *)
  let g0 := geometry (mesh entity_0) in
  let g1 := geometry (mesh entity_1) in
  let v0 := entities_0 entity_0 in
  let v1 := entities_0 entity_1 in
  (* Pack data as vectors of points *)
  let points_0 :=
    map (fun i => geometry_point g0 (v0 i)) (seq 0 (dim entity_0 + 1)) in
  let points_1 :=
    map (fun i => geometry_point g1 (v1 i)) (seq 0 (dim entity_1 + 1)) in
  (* Only look at first entity to get geometric dimension *)
  let gdim := geometry_dim g0 in
  (* Call common implementation *)
  intersection points_0 points_1 gdim.

End IntersectionConstruction.

(* ------------------------------------------------------------------ *)
(** ** Reference collaborators (exact arithmetic)

    The predicate layer is outside this translation unit.  The instances
    below give each predicate its exact-arithmetic meaning; they are used to
    run the construction code on concrete inputs. *)

Module Reference.

(** Modelled from the spec: [orient1d] of [predicates.h], the "signed
    orientation" of [x] relative to the segment [a, b]: positive beyond the
    larger end, negative before the smaller end, zero on the segment
    ("zero denotes exact incidence"). *)
Definition orient1d (a b x : double) : double :=
  if x >? Qmax a b then 1
  else if x <? Qmin a b then -1
  else 0.

(** Modelled from the spec: [orient2d] of [predicates.h], the sign-exact
    orientation determinant of [(a - c, b - c)]. *)
Definition orient2d (a b c : Point) : double :=
  (x_ a - x_ c) * (y_ b - y_ c) - (y_ a - y_ c) * (x_ b - x_ c).

(** Modelled from the spec: [orient3d] of [predicates.h], the sign-exact
    orientation determinant of [(a - d, b - d, c - d)]. *)
Definition orient3d (a b c d : Point) : double :=
  dot (a - d)%P (cross (b - d)%P (c - d)%P).

(** Modelled from the spec: [CollisionPredicates::collides_segment_point_1d],
    the containment test of a point in a 1D segment given by its two ends
    in either order. *)
Definition collides_segment_point_1d (p0 p1 point : double) : bool :=
  Qle_bool (Qmin p0 p1) point && Qle_bool point (Qmax p0 p1).

(** Modelled from the spec: containment of [x] in the segment [p0, p1]
    (on the supporting line and between the end points). *)
Definition collides_segment_point_2d (p0 p1 x : Point) : bool :=
  (orient2d p0 p1 x =? 0) && Qle_bool (dot (x - p0)%P (x - p1)%P) 0.

(** Modelled from the spec: the same containment in 3D. *)
Definition collides_segment_point_3d (p0 p1 x : Point) : bool :=
  (cross (x - p0)%P (p1 - p0)%P == origin)%P
  && Qle_bool (dot (x - p0)%P (x - p1)%P) 0.

(** Modelled from the spec: containment of [x] in the triangle: [x] is on
    no side of an edge opposite to the third vertex. *)
Definition collides_triangle_point_2d (p0 p1 p2 x : Point) : bool :=
  let ref := orient2d p0 p1 p2 in
  Qle_bool 0 (ref * orient2d p0 p1 x)
  && Qle_bool 0 (ref * orient2d p1 p2 x)
  && Qle_bool 0 (ref * orient2d p2 p0 x).

(** Modelled from the spec: containment of [x] in the triangle in 3D: [x]
    is in the plane of the triangle and on the inner side of every edge. *)
Definition collides_triangle_point_3d (p0 p1 p2 x : Point) : bool :=
  let n := cross (p1 - p0)%P (p2 - p0)%P in
  (orient3d p0 p1 p2 x =? 0)
  && Qle_bool 0 (dot n (cross (p1 - p0)%P (x - p0)%P))
  && Qle_bool 0 (dot n (cross (p2 - p1)%P (x - p1)%P))
  && Qle_bool 0 (dot n (cross (p0 - p2)%P (x - p2)%P)).

(** Modelled from the spec: containment of [x] in the tetrahedron: [x] is
    on no side of a face opposite to the fourth vertex. *)
Definition collides_tetrahedron_point_3d (p0 p1 p2 p3 x : Point) : bool :=
  let ref := orient3d p0 p1 p2 p3 in
  Qle_bool 0 (ref * orient3d x p1 p2 p3)
  && Qle_bool 0 (ref * orient3d p0 x p2 p3)
  && Qle_bool 0 (ref * orient3d p0 p1 x p3)
  && Qle_bool 0 (ref * orient3d p0 p1 p2 x).

(** Modelled from the spec: the dedicated 3D segment/segment collision
    predicate: an end point of one segment lies on the other, or the two
    supporting lines meet in a point of both segments. *)
Definition collides_segment_segment_3d (p0 p1 q0 q1 : Point) : bool :=
  collides_segment_point_3d p0 p1 q0 || collides_segment_point_3d p0 p1 q1
  || collides_segment_point_3d q0 q1 p0 || collides_segment_point_3d q0 q1 p1
  || (let w := (p0 - p1)%P in
      let v := (q0 - q1)%P in
      let u := (p1 - q1)%P in
      let wv := cross w v in
      let den := squared_norm wv in
      let x := (p1 + (dot wv (cross v u) / den) * (p0 - p1))%P in
      negb (den =? 0)
      && collides_segment_point_3d p0 p1 x
      && collides_segment_point_3d q0 q1 x).

(** Modelled from the spec: [GeometryTools::cross_product(a, b, c)], the
    cross product [(a - c) x (b - c)]. *)
Definition cross_product (a b c : Point) : Point :=
  cross (a - c)%P (b - c)%P.

(** Modelled from the spec: [GeometryTools::major_axis_2d], "the dominant
    coordinate axis" of a vector: the axis of the component of largest
    magnitude, the first axis on a tie. *)
Definition major_axis_2d (v : Point) : nat :=
  if Qle_bool (Qabs (y_ v)) (Qabs (x_ v)) then 0%nat else 1%nat.

(** Modelled from the spec: [GeometryTools::major_axis_3d], the same in
    3D. *)
Definition major_axis_3d (v : Point) : nat :=
  let vx := Qabs (x_ v) in
  let vy := Qabs (y_ v) in
  let vz := Qabs (z_ v) in
  if Qle_bool vy vx && Qle_bool vz vx then 0%nat
  else if Qle_bool vz vy then 1%nat
  else 2%nat.

(** Modelled from the spec: [GeometryTools::project_to_axis_2d], the
    coordinate of the point on the axis. *)
Definition project_to_axis_2d (p : Point) (axis : nat) : double :=
  coord p axis.

(** Modelled from the spec: [GeometryTools::project_to_plane_3d], the point
    with the coordinate of the axis dropped. *)
Definition project_to_plane_3d (p : Point) (axis : nat) : Point :=
  match axis with
  | 0%nat => Point2 (y_ p) (z_ p)
  | 1%nat => Point2 (x_ p) (z_ p)
  | _ => Point2 (x_ p) (y_ p)
  end.

#[export] Instance predicates : Predicates :=
  Build_Predicates orient1d orient2d orient3d.

#[export] Instance collision : CollisionPredicates :=
  Build_CollisionPredicates
    collides_segment_point_1d
    collides_segment_point_2d
    collides_segment_point_3d
    collides_triangle_point_2d
    collides_triangle_point_3d
    collides_tetrahedron_point_3d
    collides_segment_segment_3d.

#[export] Instance tools : GeometryTools :=
  Build_GeometryTools
    cross_product major_axis_2d major_axis_3d
    project_to_axis_2d project_to_plane_3d.

(** Modelled from the spec: the constant [DOLFIN_EPS_LARGE] ("epsilon
    large") of [dolfin/common/constants.h], 1.0e-14. *)
#[export] Instance constants : Constants :=
  Build_Constants (1 # 100000000000000).

End Reference.

(* ------------------------------------------------------------------ *)
(** ** Superseded implementations ("old versions kept around for
       reference") *)

(** The collaborators that only the superseded implementations use:
    further collision predicates of [CollisionPredicates.h], [Point::norm]
    of [Point.h], [std::sqrt], and the constant [DOLFIN_EPS] of
    [dolfin/common/constants.h]. *)
Class LegacyCollaborators : Type := {
  collides_segment_segment_1d : double -> double -> double -> double -> bool;
  collides_segment_segment_2d : Point -> Point -> Point -> Point -> bool;
  collides_triangle_triangle_2d :
    Point -> Point -> Point -> Point -> Point -> Point -> bool;
  collides_triangle_segment_3d :
    Point -> Point -> Point -> Point -> Point -> bool;
  norm : Point -> double;
  sqrt : double -> double;
  DOLFIN_EPS : double
}.

(** [std::min(a, b)] and [std::max(a, b)]: the first argument unless the
    second is smaller, respectively larger. *)
Definition std_min (a b : double) : double := if b <? a then b else a.
Definition std_max (a b : double) : double := if a <? b then b else a.

(** [std::signbit]: the model has no negative zero, so the sign bit is set
    exactly on the negative numbers. *)
Definition signbit (a : double) : bool := a <? 0.

(** Modelled from the spec: [Point::operator/] of [Point.h], the "scale"
    of the vector arithmetic, by the inverse of a scalar. *)
Definition Point_div (p : Point) (a : double) : Point :=
  mkPoint (x_ p / a) (y_ p / a) (z_ p / a).

(** Modelled from the spec: assignment [p[i] = v] to a coordinate through
    [Point::operator[]]; an index beyond 2 is out of bounds in the source
    and leaves the point unchanged in the model. *)
Definition set_coord (p : Point) (i : nat) (v : double) : Point :=
  match i with
  | O => mkPoint v (y_ p) (z_ p)
  | S O => mkPoint (x_ p) v (z_ p)
  | S (S O) => mkPoint (x_ p) (y_ p) v
  | _ => p
  end.

(** [for (i = 0; i < n; ++i) body] on the vector [points]. *)
Definition for_range (n : nat) (body : nat -> list Point -> list Point)
    (points : list Point) : list Point :=
  fold_left (fun points i => body i points) (seq 0 n) points.

(** A range-for over the rows of a constant table. *)
Definition for_each {A : Type} (rows : list A)
    (body : A -> list Point -> list Point) (points : list Point)
  : list Point :=
  fold_left (fun points row => body row points) rows points.

(** What [_intersection_tetrahedron_tetrahedron_3d_old] writes to
    [std::cout]: one line per vertex, a label followed by the point. *)
Definition cout_line : Type := (string * Point)%type.

Section LegacyImplementations.

Context {PR : Predicates} {CP : CollisionPredicates}
        {GT : GeometryTools} {CS : Constants} {LC : LegacyCollaborators}.


(** The body of the loop "Can we reduce to axis-aligned 1d?" for one [d]:
    [Some] is the [return] inside the loop. *)
Definition segment_segment_2d_old_reduce (p0 p1 q0 q1 : Point) (d : nat)
  : option (list Point) :=
  (* Check if coordinates in dimension d is the same *)
  let reduce := (coord p0 d =? coord p1 d) && (coord p1 d =? coord q0 d)
                && (coord q0 d =? coord q1 d) in
  if reduce then
    let j := ((d + 1) mod 2)%nat in
    let intersection_1d :=
      intersection_segment_segment_1d
        (coord p0 j) (coord p1 j) (coord q0 j) (coord q1 j) in
    (* points.resize(intersection_1d.size()), then two coordinates of each
       default-constructed point are assigned *)
    Some (map (fun v => set_coord (set_coord origin d (coord p0 d)) j v)
              intersection_1d)
  else None.

(** The part of [_intersection_segment_segment_2d_old] after the end point
    tests have found nothing: the four cases on [den] and [num]. *)
Definition segment_segment_2d_old_cases (p0 p1 q0 q1 : Point)
    (points : list Point) : list Point :=
  (* Use shortest distance as P0, P1 *)
  let use_p := squared_distance p0 p1 <? squared_distance q0 q1 in
  let '(P0, P1, Q0, Q1) :=
    if use_p then (p0, p1, q0, q1) else (q0, q1, p0, p1) in
  let num := orient2d Q0 Q1 P0 in
  let den := (x_ P1 - x_ P0) * (y_ Q1 - y_ Q0)
           - (y_ P1 - y_ P0) * (x_ Q1 - x_ Q0) in
  (* Case 0 (den = num = 0): segments are collinear *)
  if (den =? 0) && (num =? 0) then
    let r := (Q1 - p0)%P in
    let r2 := squared_norm r in
    let rn := Point_div r (sqrt r2) in
    let t0 := dot (Q0 - P0)%P r / r2 in
    let t1 := dot (Q1 - P0)%P r / r2 in
    let '(t0, t1) := if t0 >? t1 then (t1, t0) else (t0, t1) in
    if collides_segment_segment_1d t0 t1 0 1 then
      (* Compute two intersection points *)
      let z0 := (P0 + std_max 0 t0 * r)%P in
      let z1 := (P0 + std_min 1 (dot (Q0 - P0)%P r / r2) * r)%P in
      (points ++ [z0]) ++ [z1]
    else points
  (* Case 1 (den = 0, num != 0): segments parallel but disjoint *)
  else if den =? 0 then points
  (* Case 2 (den != 0, num != 0): segments not nearly parallel *)
  else if Qabs (den * den) >? DOLFIN_EPS_LARGE * Qabs num then
    let x0 := (P0 + (num / den) * (P1 - P0))%P in
    points ++ [x0]
  (* Case 3 (den != 0, num != 0): segments nearly parallel *)
  else
    let dim := if Qabs (x_ Q0 - x_ Q1) >? Qabs (y_ Q0 - y_ Q1)
               then 0%nat else 1%nat in
    (* Sort the points according to dim *)
    let _points :=
      std_sort (fun a b => coord a dim <? coord b dim) [P0; P1; Q0; Q1] in
    (* Return midpoint *)
    let xm := Point_div (at_ _points 1 + at_ _points 2)%P 2 in
    points ++ [xm].

Definition _intersection_segment_segment_2d_old (p0 p1 q0 q1 : Point)
  : list Point :=
  (* The list of points (convex hull) *)
  let points : list Point := [] in
  (* Avoid some unnecessary computations *)
  if negb (collides_segment_segment_2d p0 p1 q0 q1) then points
  else
    (* Can we reduce to axis-aligned 1d? *)
    match segment_segment_2d_old_reduce p0 p1 q0 q1 0
          <|> segment_segment_2d_old_reduce p0 p1 q0 q1 1 with
    | Some reduced => reduced
    | None =>
      (* Check if the segment is actually a point *)
      if (p0 == p1)%P && collides_segment_point_2d q0 q1 p0
      then points ++ [p0]
      else if (q0 == q1)%P && collides_segment_point_2d p0 p1 q0
      then points ++ [q0]
      else
        (* First test points to match procedure of
           _collides_segment_segment_2d *)
        let points :=
          if collides_segment_point_2d q0 q1 p0
          then points ++ [p0] else points in
        let points :=
          if collides_segment_point_2d q0 q1 p1
          then points ++ [p1] else points in
        let points :=
          if collides_segment_point_2d p0 p1 q0
          then points ++ [q0] else points in
        let points :=
          if collides_segment_point_2d p0 p1 q1
          then points ++ [q1] else points in
        (* Now we may have found all the intersections *)
        if Nat.eqb (List.length points) 1 then points
        else if Nat.ltb 1 (List.length points) then _unique_points points
        else
          _unique_points (segment_segment_2d_old_cases p0 p1 q0 q1 points)
    end.

Definition _intersection_triangle_segment_2d_old (p0 p1 p2 q0 q1 : Point)
  : list Point :=
  (* The list of points (convex hull) *)
  let points : list Point := [] in
  let points :=
    if collides_triangle_point_2d p0 p1 p2 q0
    then points ++ [q0] else points in
  let points :=
    if collides_triangle_point_2d p0 p1 p2 q1
    then points ++ [q1] else points in
  let points :=
    if collides_segment_segment_2d p0 p1 q0 q1
    then points ++ intersection_segment_segment_2d p0 p1 q0 q1
    else points in
  let points :=
    if collides_segment_segment_2d p0 p2 q0 q1
    then points ++ intersection_segment_segment_2d p0 p2 q0 q1
    else points in
  let points :=
    if collides_segment_segment_2d p1 p2 q0 q1
    then points ++ intersection_segment_segment_2d p1 p2 q0 q1
    else points in
  (* Remove strict duplicates *)
  _unique_points points.

Definition _intersection_triangle_triangle_2d_old
    (p0 p1 p2 q0 q1 q2 : Point) : list Point :=
  (* The list of points (convex hull) *)
  let points : list Point := [] in
  let points :=
    if collides_triangle_triangle_2d p0 p1 p2 q0 q1 q2 then
      (* Pack points as vectors *)
      let tri_0 := [p0; p1; p2] in
      let tri_1 := [q0; q1; q2] in
      (* Find all vertex-vertex collision *)
      let points :=
        for_range 3 (fun i => for_range 3 (fun j points =>
          if (at_ tri_0 i == at_ tri_1 j)%P
          then points ++ [at_ tri_0 i] else points)) points in
      (* Find all vertex-"edge interior" intersections *)
      let points :=
        for_range 3 (fun i => for_range 3 (fun j points =>
          let points :=
            if negb (at_ tri_0 i == at_ tri_1 j)%P
               && negb (at_ tri_0 ((i + 1) mod 3) == at_ tri_1 j)%P
               && collides_segment_point_2d
                    (at_ tri_0 i) (at_ tri_0 ((i + 1) mod 3)) (at_ tri_1 j)
            then points ++ [at_ tri_1 j] else points in
          let points :=
            if negb (at_ tri_1 i == at_ tri_0 j)%P
               && negb (at_ tri_1 ((i + 1) mod 3) == at_ tri_0 j)%P
               && collides_segment_point_2d
                    (at_ tri_1 i) (at_ tri_1 ((i + 1) mod 3)) (at_ tri_0 j)
            then points ++ [at_ tri_0 j] else points in
          points)) points in
      (* Find all "edge interior"-"edge interior" intersections *)
      let points :=
        for_range 3 (fun i => for_range 3 (fun j points =>
          let triangulation :=
            intersection_segment_segment_2d
              (at_ tri_0 i) (at_ tri_0 ((i + 1) mod 3))
              (at_ tri_1 j) (at_ tri_1 ((j + 1) mod 3)) in
          points ++ triangulation)) points in
      (* Find all vertex-"triangle interior" intersections *)
      let s0 : double :=
        if signbit (orient2d (at_ tri_0 0) (at_ tri_0 1) (at_ tri_0 2))
        then -1 else 1 in
      let s1 : double :=
        if signbit (orient2d (at_ tri_1 0) (at_ tri_1 1) (at_ tri_1 2))
        then -1 else 1 in
      for_range 3 (fun i points =>
        let q0_q1_pi := s1 * orient2d (at_ tri_1 0) (at_ tri_1 1) (at_ tri_0 i) in
        let q1_q2_pi := s1 * orient2d (at_ tri_1 1) (at_ tri_1 2) (at_ tri_0 i) in
        let q2_q0_pi := s1 * orient2d (at_ tri_1 2) (at_ tri_1 0) (at_ tri_0 i) in
        let points :=
          if (q0_q1_pi >? 0) && (q1_q2_pi >? 0) && (q2_q0_pi >? 0)
          then points ++ [at_ tri_0 i] else points in
        let p0_p1_qi := s0 * orient2d (at_ tri_0 0) (at_ tri_0 1) (at_ tri_1 i) in
        let p1_p2_qi := s0 * orient2d (at_ tri_0 1) (at_ tri_0 2) (at_ tri_1 i) in
        let p2_p0_qi := s0 * orient2d (at_ tri_0 2) (at_ tri_0 0) (at_ tri_1 i) in
        let points :=
          if (p0_p1_qi >? 0) && (p1_p2_qi >? 0) && (p2_p0_qi >? 0)
          then points ++ [at_ tri_1 i] else points in
        points) points
    else points in
  _unique_points points.

(** The edge and face tables of the superseded 3D implementations. *)
Definition tet_edges : list (nat * nat) :=
  [ (2, 3); (1, 3); (1, 2); (0, 3); (0, 2); (0, 1) ]%nat.
Definition tet_faces : list (nat * nat * nat) :=
  [ (1, 2, 3); (0, 2, 3); (0, 1, 3); (0, 1, 2) ]%nat.
Definition tri_edges : list (nat * nat) :=
  [ (0, 1); (0, 2); (1, 2) ]%nat.

(** "Remove duplicate nodes" of [_intersection_tetrahedron_triangle_3d_old]:
    element [i] is kept iff no later element is closer than the
    tolerance. *)
Fixpoint remove_duplicate_nodes (same_point_tol : double)
    (points : list Point) : list Point :=
  match points with
  | [] => []
  | x :: rest =>
      let different :=
        negb (existsb (fun y => norm (x - y)%P <? same_point_tol) rest) in
      if different then x :: remove_duplicate_nodes same_point_tol rest
      else remove_duplicate_nodes same_point_tol rest
  end.

Definition _intersection_tetrahedron_triangle_3d_old
    (p0 p1 p2 p3 q0 q1 q2 : Point) : list Point :=
  (* Pack points as vectors *)
  let tet := [p0; p1; p2; p3] in
  let tri := [q0; q1; q2] in
  (* Tolerance for duplicate points *)
  let same_point_tol := DOLFIN_EPS in
  (* Tolerance for small triangle (not used) *)
  let tri_det_tol := DOLFIN_EPS in
  let points : list Point := [] in
  (* Triangle node in tetrahedron intersection *)
  let points :=
    for_range 3 (fun i points =>
      if collides_tetrahedron_point_3d
           (at_ tet 0) (at_ tet 1) (at_ tet 2) (at_ tet 3) (at_ tri i)
      then points ++ [at_ tri i] else points) points in
  (* Check if a tetrahedron edge intersects the triangle *)
  let points :=
    for_each tet_edges (fun e points =>
      if collides_triangle_segment_3d
           (at_ tri 0) (at_ tri 1) (at_ tri 2)
           (at_ tet (fst e)) (at_ tet (snd e))
      then
        let ii :=
          intersection_triangle_segment_3d
            (at_ tri 0) (at_ tri 1) (at_ tri 2)
            (at_ tet (fst e)) (at_ tet (snd e)) in
        points ++ ii
      else points) points in
  (* check if a triangle edge intersects a tetrahedron face *)
  let points :=
    for_each tet_faces (fun f =>
      for_each tri_edges (fun e points =>
        if collides_triangle_segment_3d
             (at_ tet (fst (fst f))) (at_ tet (snd (fst f)))
             (at_ tet (snd f))
             (at_ tri (fst e)) (at_ tri (snd e))
        then
          let ii :=
            intersection_triangle_segment_3d
              (at_ tet (fst (fst f))) (at_ tet (snd (fst f)))
              (at_ tet (snd f))
              (at_ tri (fst e)) (at_ tri (snd e)) in
          points ++ ii
        else points)) points in
  (* Remove duplicate nodes *)
  remove_duplicate_nodes same_point_tol points.

Definition _intersection_tetrahedron_tetrahedron_3d_old
    (p0 p1 p2 p3 q0 q1 q2 q3 : Point) : list cout_line * list Point :=
  let cout : list cout_line :=
    [ ("p0 = ", p0); ("p1 = ", p1); ("p2 = ", p2); ("p3 = ", p3);
      ("q0 = ", q0); ("q1 = ", q1); ("q2 = ", q2); ("q3 = ", q3) ]%string in
  (* Pack points as vectors *)
  let tet_0 := [p0; p1; p2; p3] in
  let tet_1 := [q0; q1; q2; q3] in
  (* Points in the triangulation (unique) *)
  let points : list Point := [] in
  (* Node intersection *)
  let points :=
    for_range 4 (fun i points =>
      let points :=
        if collides_tetrahedron_point_3d
             (at_ tet_0 0) (at_ tet_0 1) (at_ tet_0 2) (at_ tet_0 3)
             (at_ tet_1 i)
        then points ++ [at_ tet_1 i] else points in
      let points :=
        if collides_tetrahedron_point_3d
             (at_ tet_1 0) (at_ tet_1 1) (at_ tet_1 2) (at_ tet_1 3)
             (at_ tet_0 i)
        then points ++ [at_ tet_0 i] else points in
      points) points in
  (* Edge face intersections *)
  let edges := tet_edges in
  let faces := tet_faces in
  (* Loop over edges e and faces f *)
  let points :=
    for_each edges (fun e =>
      for_each faces (fun f points =>
        let points :=
          if collides_triangle_segment_3d
               (at_ tet_0 (fst (fst f))) (at_ tet_0 (snd (fst f)))
               (at_ tet_0 (snd f))
               (at_ tet_1 (fst e)) (at_ tet_1 (snd e))
          then
            points ++
            intersection_triangle_segment_3d
              (at_ tet_0 (fst (fst f))) (at_ tet_0 (snd (fst f)))
              (at_ tet_0 (snd f))
              (at_ tet_1 (fst e)) (at_ tet_1 (snd e))
          else points in
        let points :=
          if collides_triangle_segment_3d
               (at_ tet_1 (fst (fst f))) (at_ tet_1 (snd (fst f)))
               (at_ tet_1 (snd f))
               (at_ tet_0 (fst e)) (at_ tet_0 (snd e))
          then
            points ++
            intersection_triangle_segment_3d
              (at_ tet_1 (fst (fst f))) (at_ tet_1 (snd (fst f)))
              (at_ tet_1 (snd f))
              (at_ tet_0 (fst e)) (at_ tet_0 (snd e))
          else points in
        points)) points in
  (* Edge edge intersection *)
  let points :=
    for_each edges (fun ei =>
      for_each edges (fun ej points =>
        if collides_segment_segment_3d
             (at_ tet_0 (fst ei)) (at_ tet_0 (snd ei))
             (at_ tet_1 (fst ej)) (at_ tet_1 (snd ej))
        then
          points ++
          intersection_segment_segment_3d
            (at_ tet_0 (fst ei)) (at_ tet_0 (snd ei))
            (at_ tet_1 (fst ej)) (at_ tet_1 (snd ej))
        else points)) points in
  let unique := _unique_points points in
  (cout, unique).

End LegacyImplementations.

(* ------------------------------------------------------------------ *)
(** ** Claims of the specification, as definitions *)

(** The supported combinations [(dim(p) - 1, dim(q) - 1, gdim)] listed in
    the specification of the dispatch layer: {segment, segment} in 1D, 2D,
    3D; {segment, triangle} and {triangle, segment} in 2D, 3D; {triangle,
    triangle} in 2D, 3D; {triangle, tetrahedron} and {tetrahedron,
    triangle} in 3D; {tetrahedron, tetrahedron} in 3D. *)
Definition supported_combinations : list (Z * Z * Z) :=
  [ (1, 1, 1); (1, 1, 2); (1, 1, 3);
    (1, 2, 2); (1, 2, 3); (2, 1, 2); (2, 1, 3);
    (2, 2, 2); (2, 2, 3);
    (2, 3, 3); (3, 2, 3);
    (3, 3, 3) ]%Z.

(** The topological dimension the dispatch layer computes from a vertex
    list. *)
Definition topological_dimension (p : list Point) : Z :=
  size_t_wrap (Z.of_nat (List.length p) - 1).

(** The mesh entity [e] with the geometric dimension of its mesh replaced
    by [d], everything else unchanged. *)
Definition with_geometry_dim (e : MeshEntity) (d : Z) : MeshEntity :=
  mkMeshEntity
    (mkMesh (mkMeshGeometry d (geometry_point (geometry (mesh e)))))
    (dim e) (entities_0 e).

(** The vertex coordinates of a mesh entity, as the overload packs them. *)
Definition entity_points (e : MeshEntity) : list Point :=
  map (fun i => geometry_point (geometry (mesh e)) (entities_0 e i))
      (seq 0 (dim e + 1)).

(** The sign behaviour of [orient1d] on which the 1D intersector rests. *)
Definition orient1d_sign_exact (PR : Predicates) : Prop :=
  forall a b x : double,
    (Qmax a b < x -> 0 < orient1d a b x) /\
    (x < Qmin a b -> orient1d a b x < 0) /\
    (Qmin a b <= x <= Qmax a b -> orient1d a b x == 0).


(** *** Point lists as sets *)

(** Membership up to the exact equality [==] of points. *)
Definition mem (x : Point) (l : list Point) : bool :=
  existsb (fun y => (x == y)%P) l.

(** Two point lists that are equal as sets. *)
Definition same_points (l1 l2 : list Point) : Prop :=
  forall x : Point, mem x l1 = mem x l2.

(** Two outcomes that are point lists equal as sets. *)
Definition same_outcome (r1 r2 : Result (list Point)) : Prop :=
  match r1, r2 with
  | Ok l1, Ok l2 => same_points l1 l2
  | _, _ => False
  end.

(** No two elements of the list are exactly equal. *)
Fixpoint duplicate_free (l : list Point) : bool :=
  match l with
  | [] => true
  | x :: rest => negb (mem x rest) && duplicate_free rest
  end.

(** *** The order of the two arguments *)

(** The end-point part shared by the 1D intersector and the 2D block
    [segment_segment_2d_endpoints]: the four [add_if_equal] calls, then
    each end point is appended if it was not matched and its condition
    [c_] holds. *)
Definition endpoint_block {T : Type} (eqb : T -> T -> bool)
    (p0 p1 q0 q1 : T) (c_p0 c_p1 c_q0 c_q1 : bool) : list T :=
  let '(points, p0i, q0i) := add_if_equal eqb [] p0 q0 false false in
  let '(points, p0i, q1i) := add_if_equal eqb points p0 q1 p0i false in
  let '(points, p1i, q0i) := add_if_equal eqb points p1 q0 false q0i in
  let '(points, p1i, q1i) := add_if_equal eqb points p1 q1 p1i q1i in
  let points := if negb p0i && c_p0 then points ++ [p0] else points in
  let points := if negb p1i && c_p1 then points ++ [p1] else points in
  let points := if negb q0i && c_q0 then points ++ [q0] else points in
  let points := if negb q1i && c_q1 then points ++ [q1] else points in
  points.



(** The two segments have different squared lengths. *)
Definition lengths_differ (p0 p1 q0 q1 : Point) : bool :=
  (squared_distance p0 p1 <? squared_distance q0 q1)
  || (squared_distance q0 q1 <? squared_distance p0 p1).


(** The three edges of a triangle, as the intersectors enumerate them. *)
Definition triangle_edges (a b c : Point) : list (Point * Point) :=
  [ (a, b); (a, c); (b, c) ].


(** *** Sorting by a rational key *)


(* ------------------------------------------------------------------ *)
(** ** Further properties of the code, as definitions *)




(* ------------------------------------------------------------------ *)
(** ** Reference collaborators of the superseded implementations *)

Module LegacyReference.

(** Modelled from the spec: [CollisionPredicates::collides_segment_segment_1d]
    is one of the collision predicates outside this translation unit; its
    exact meaning is that the two intervals, each given by its ends in
    either order, share a point. *)
Definition collides_segment_segment_1d (p0 p1 q0 q1 : double) : bool :=
  Qle_bool (Qmax (Qmin p0 p1) (Qmin q0 q1)) (Qmin (Qmax p0 p1) (Qmax q0 q1)).

(** Modelled from the spec: [CollisionPredicates::collides_segment_segment_2d]:
    an end point of one segment lies on the other, or each segment has its
    end points strictly on the two sides of the other. *)
Definition collides_segment_segment_2d (p0 p1 q0 q1 : Point) : bool :=
  Reference.collides_segment_point_2d p0 p1 q0
  || Reference.collides_segment_point_2d p0 p1 q1
  || Reference.collides_segment_point_2d q0 q1 p0
  || Reference.collides_segment_point_2d q0 q1 p1
  || ((Reference.orient2d q0 q1 p0 * Reference.orient2d q0 q1 p1 <? 0)
      && (Reference.orient2d p0 p1 q0 * Reference.orient2d p0 p1 q1 <? 0)).

(** Modelled from the spec:
    [CollisionPredicates::collides_triangle_triangle_2d]: a vertex of one
    triangle lies in the other, or an edge of one meets an edge of the
    other. *)
Definition collides_triangle_triangle_2d
    (p0 p1 p2 q0 q1 q2 : Point) : bool :=
  existsb (Reference.collides_triangle_point_2d p0 p1 p2) [q0; q1; q2]
  || existsb (Reference.collides_triangle_point_2d q0 q1 q2) [p0; p1; p2]
  || existsb (fun pe =>
       existsb (fun qe =>
                  collides_segment_segment_2d
                    (fst pe) (snd pe) (fst qe) (snd qe))
               (triangle_edges q0 q1 q2))
       (triangle_edges p0 p1 p2).

(** Modelled from the spec:
    [CollisionPredicates::collides_triangle_segment_3d]: an end point of
    the segment lies in the triangle, the segment meets an edge of the
    triangle, or its end points are strictly on the two sides of the plane
    of the triangle and it crosses the plane inside the triangle. *)
Definition collides_triangle_segment_3d (p0 p1 p2 q0 q1 : Point) : bool :=
  Reference.collides_triangle_point_3d p0 p1 p2 q0
  || Reference.collides_triangle_point_3d p0 p1 p2 q1
  || Reference.collides_segment_segment_3d p0 p1 q0 q1
  || Reference.collides_segment_segment_3d p0 p2 q0 q1
  || Reference.collides_segment_segment_3d p1 p2 q0 q1
  || (let q0o := Reference.orient3d p0 p1 p2 q0 in
      let q1o := Reference.orient3d p0 p1 p2 q1 in
      (q0o * q1o <? 0)
      && Reference.collides_triangle_point_3d p0 p1 p2
           (q0 + (q0o / (q0o - q1o)) * (q1 - q0))%P).

(** Modelled from the spec: [std::sqrt], which returns a rounded square
    root: here the square root rounded down to 52 binary digits after the
    point ([0] on a negative argument, where [std::sqrt] gives NaN). *)
Definition sqrt (x : double) : double :=
  Z.sqrt (Qnum x * 2 ^ 104 / Zpos (Qden x)) # 2 ^ 52.

(** Modelled from the spec: [Point::norm] of [Point.h], the square root of
    [squared_norm]. *)
Definition norm (p : Point) : double := sqrt (squared_norm p).

(** Modelled from the spec: the constant [DOLFIN_EPS] of
    [dolfin/common/constants.h], 3.0e-16. *)
#[export] Instance collaborators : LegacyCollaborators :=
  Build_LegacyCollaborators
    collides_segment_segment_1d
    collides_segment_segment_2d
    collides_triangle_triangle_2d
    collides_triangle_segment_3d
    norm sqrt
    (3 # 10000000000000000).

End LegacyReference.

(* ------------------------------------------------------------------ *)
(** ** Concrete inputs *)

Module Inputs.

(** Two segments that cross at (1/2, 1/2) and have the same length. *)
Definition a0 : Point := Point2 0 0.
Definition a1 : Point := Point2 1 1.
Definition b0 : Point := Point2 0 1.
Definition b1 : Point := Point2 1 0.


Definition c0 : Point :=
  Point2 (1 # 2) (562949953421311 # 1125899906842624).
Definition c1 : Point :=
  Point2 (4503599627370495 # 4503599627370496)
         (4503599627370497 # 4503599627370496).

(** Two nearly collinear crossing segments of the same squared length
    [1 + 2^-100]. *)
Definition u0 : Point := Point2 0 0.
Definition u1 : Point := Point2 1 (1 # 1125899906842624).
Definition v0 : Point := Point2 (-3 # 4) (1 # 1125899906842624).
Definition v1 : Point := Point2 (1 # 4) 0.

(** Two disjoint parallel segments. *)
Definition d0 : Point := Point2 0 0.
Definition d1 : Point := Point2 1 0.

(** A point and segments through it or past it. *)
Definition centre : Point := Point2 0 0.
Definition west : Point := Point2 (-1) 0.
Definition east : Point := Point2 1 0.
Definition south_west : Point := Point2 (-2) (-1).
Definition north_east : Point := Point2 2 1.
Definition south : Point := Point2 0 (-1).
Definition north : Point := Point2 0 1.
Definition above : Point := Point2 0 2.

(** The unit tetrahedron and a point inside it. *)
Definition t0 : Point := mkPoint 0 0 0.
Definition t1 : Point := mkPoint 1 0 0.
Definition t2 : Point := mkPoint 0 1 0.
Definition t3 : Point := mkPoint 0 0 1.
Definition inner : Point := mkPoint (1 # 4) (1 # 4) (1 # 4).

(** A mesh on the x axis whose vertex [i] is at abscissa [i], in a 2D
    geometry, and two of its cells: the segments (0,2) and (1,3). *)
Definition line_geometry : MeshGeometry :=
  mkMeshGeometry 2 (fun i => Point2 (inject_Z (Z.of_nat i)) 0).
Definition cell_0_2 : MeshEntity :=
  mkMeshEntity (mkMesh line_geometry) 1 (fun i => (2 * i)%nat).
Definition cell_1_3 : MeshEntity :=
  mkMeshEntity (mkMesh line_geometry) 1 (fun i => (2 * i + 1)%nat).

End Inputs.

(* ------------------------------------------------------------------ *)
(** ** Basic facts *)

Lemma Qltb_lt (a b : double) : (a <? b) = true <-> a < b.
Proof.
  unfold Qltb. rewrite negb_true_iff.
  split; intro H.
  - apply Qnot_le_lt. intro L. apply Qle_bool_iff in L. congruence.
  - destruct (Qle_bool b a) eqn:E; [|reflexivity].
    apply Qle_bool_iff in E. exfalso. apply (Qlt_not_le _ _ H E).
Qed.

Lemma Qgtb_gt (a b : double) : (a >? b) = true <-> b < a.
Proof. unfold Qgtb. apply Qltb_lt. Qed.

Lemma Qltb_ge (a b : double) : (a <? b) = false <-> b <= a.
Proof.
  unfold Qltb. rewrite negb_false_iff. apply Qle_bool_iff.
Qed.

Lemma Qeqb_eq (a b : double) : (a =? b) = true <-> a == b.
Proof. apply Qeq_bool_iff. Qed.

Lemma Qeqb_neq (a b : double) : (a =? b) = false <-> ~ a == b.
Proof.
  split; intro H.
  - intro E. apply Qeq_bool_iff in E. congruence.
  - destruct (a =? b) eqn:E; [|reflexivity].
    apply Qeq_bool_iff in E. contradiction.
Qed.




Lemma add_all_concat (calls : list (list Point)) :
  add_all calls = List.concat calls.
Proof.
  unfold add_all.
  assert (G : forall acc, fold_left _add calls acc = acc ++ List.concat calls).
  { induction calls as [|c calls IH]; intro acc; simpl.
    - now rewrite app_nil_r.
    - rewrite IH. unfold _add. now rewrite app_assoc. }
  apply (G []).
Qed.

Lemma Qeqb_sym (a b : double) : (a =? b) = (b =? a).
Proof.
  destruct (a =? b) eqn:E1, (b =? a) eqn:E2; try reflexivity.
  - apply Qeq_bool_sym in E1. congruence.
  - apply Qeq_bool_sym in E2. congruence.
Qed.

Lemma Qeqb_trans (a b c : double) :
  (a =? b) = true -> (b =? c) = true -> (a =? c) = true.
Proof. apply Qeq_bool_trans. Qed.

(** [==] on points is an equivalence. *)
Lemma Point_eqb_refl (a : Point) : (a == a)%P = true.
Proof. unfold Point_eqb. now rewrite !Qeq_bool_refl. Qed.


Lemma Point_eqb_trans (a b c : Point) :
  (a == b)%P = true -> (b == c)%P = true -> (a == c)%P = true.
Proof.
  unfold Point_eqb. rewrite !andb_true_iff.
  intros [[A1 A2] A3] [[B1 B2] B3].
  repeat split; eapply Qeqb_trans; eassumption.
Qed.

(** Membership in appended, deduplicated and accumulated lists. *)
Lemma mem_app (x : Point) (l1 l2 : list Point) :
  mem x (l1 ++ l2) = mem x l1 || mem x l2.
Proof. apply existsb_app. Qed.

Lemma mem_trans (x y : Point) (l : list Point) :
  (x == y)%P = true -> mem y l = true -> mem x l = true.
Proof.
  unfold mem. rewrite !existsb_exists.
  intros E (z & Hz & Ez). exists z. split; [exact Hz|].
  eapply Point_eqb_trans; eassumption.
Qed.

Lemma mem_unique_points (x : Point) (l : list Point) :
  mem x (_unique_points l) = mem x l.
Proof.
  induction l as [|y l IH]; [reflexivity|].
  simpl. destruct (existsb (fun y0 => (y == y0)%P) l) eqn:F; simpl.
  - rewrite IH. destruct (x == y)%P eqn:E; [|reflexivity].
    simpl. eapply mem_trans; [exact E | exact F].
  - now rewrite IH.
Qed.

Lemma mem_add_all (x : Point) (calls : list (list Point)) :
  mem x (add_all calls) = existsb (mem x) calls.
Proof.
  rewrite add_all_concat.
  induction calls as [|c calls IH]; [reflexivity|].
  simpl. now rewrite mem_app, IH.
Qed.


(** [_unique_points] leaves no two equal points. *)
Lemma unique_points_duplicate_free (l : list Point) :
  duplicate_free (_unique_points l) = true.
Proof.
  induction l as [|y l IH]; [reflexivity|].
  simpl. destruct (existsb (fun y0 => (y == y0)%P) l) eqn:F; simpl.
  - exact IH.
  - rewrite mem_unique_points. unfold mem. now rewrite F, IH.
Qed.







(** [std_sort] permutes its input, and sorts it when the comparator is
    [key a < key b] for a rational key. *)
Section Sorting.

Variable T : Type.



Variable key : T -> double.



End Sorting.

(** The end-point block gives the same set when the two segments are
    exchanged, for any equality test that is symmetric and transitive. *)
Section EndpointBlock.

Variable T : Type.
Variable eqb : T -> T -> bool.
Hypothesis eqb_sym : forall a b, eqb a b = eqb b a.
Hypothesis eqb_trans :
  forall a b c, eqb a b = true -> eqb b c = true -> eqb a c = true.



End EndpointBlock.

(* ------------------------------------------------------------------ *)
(** ** Theorems that hold for every choice of the collaborators *)

Section Properties.

Context {PR : Predicates} {CP : CollisionPredicates}
        {GT : GeometryTools} {CS : Constants}.

Lemma triangle_segment_3d_nil (p0 p1 p2 q0 q1 : Point) :
  intersection_triangle_segment_3d p0 p1 p2 q0 q1 = [].
Proof.
  unfold intersection_triangle_segment_3d.
  destruct (_ >? 0); reflexivity.
Qed.

(** The dispatch layer on vertex lists of the supported sizes. *)
Lemma dispatch_segment_segment_1d (p0 p1 q0 q1 : Point) :
  intersection [p0; p1] [q0; q1] 1 =
  Ok (map Point1
        (intersection_segment_segment_1d (x_ p0) (x_ p1) (x_ q0) (x_ q1))).
Proof. reflexivity. Qed.


Lemma dispatch_segment_segment_3d (p0 p1 q0 q1 : Point) :
  intersection [p0; p1] [q0; q1] 3 =
  Ok (intersection_segment_segment_3d p0 p1 q0 q1).
Proof. reflexivity. Qed.










(** C1. In 3D, [intersection_triangle_segment_3d] returns the empty list on
    every triangle and segment; hence the 3D composite intersectors
    (triangle-triangle, tetrahedron-segment, tetrahedron-triangle,
    tetrahedron-tetrahedron) return exactly the vertex-containment points
    they collected (deduplicated where the source deduplicates) and no
    edge-face crossing point. *)
Theorem triangle_segment_3d_always_empty :
  (forall p0 p1 p2 q0 q1,
     intersection_triangle_segment_3d p0 p1 p2 q0 q1 = []) /\
  (forall p0 p1 p2 q0 q1 q2,
     intersection_triangle_triangle_3d p0 p1 p2 q0 q1 q2 =
     _unique_points
       (intersection_triangle_point_3d p0 p1 p2 q0 ++
        intersection_triangle_point_3d p0 p1 p2 q1 ++
        intersection_triangle_point_3d p0 p1 p2 q2 ++
        intersection_triangle_point_3d q0 q1 q2 p0 ++
        intersection_triangle_point_3d q0 q1 q2 p1 ++
        intersection_triangle_point_3d q0 q1 q2 p2)) /\
  (forall p0 p1 p2 p3 q0 q1,
     intersection_tetrahedron_segment_3d p0 p1 p2 p3 q0 q1 =
     intersection_tetrahedron_point_3d p0 p1 p2 p3 q0 ++
     intersection_tetrahedron_point_3d p0 p1 p2 p3 q1) /\
  (forall p0 p1 p2 p3 q0 q1 q2,
     intersection_tetrahedron_triangle_3d p0 p1 p2 p3 q0 q1 q2 =
     _unique_points
       (intersection_tetrahedron_point_3d p0 p1 p2 p3 q0 ++
        intersection_tetrahedron_point_3d p0 p1 p2 p3 q1 ++
        intersection_tetrahedron_point_3d p0 p1 p2 p3 q2 ++
        intersection_triangle_point_3d q0 q1 q2 p0 ++
        intersection_triangle_point_3d q0 q1 q2 p1 ++
        intersection_triangle_point_3d q0 q1 q2 p2 ++
        intersection_triangle_point_3d q0 q1 q2 p3)) /\
  (forall p0 p1 p2 p3 q0 q1 q2 q3,
     intersection_tetrahedron_tetrahedron_3d p0 p1 p2 p3 q0 q1 q2 q3 =
     _unique_points
       (intersection_tetrahedron_point_3d p0 p1 p2 p3 q0 ++
        intersection_tetrahedron_point_3d p0 p1 p2 p3 q1 ++
        intersection_tetrahedron_point_3d p0 p1 p2 p3 q2 ++
        intersection_tetrahedron_point_3d p0 p1 p2 p3 q3 ++
        intersection_tetrahedron_point_3d q0 q1 q2 q3 p0 ++
        intersection_tetrahedron_point_3d q0 q1 q2 q3 p1 ++
        intersection_tetrahedron_point_3d q0 q1 q2 q3 p2 ++
        intersection_tetrahedron_point_3d q0 q1 q2 q3 p3)).
Proof.
  repeat split; intros.
  - apply triangle_segment_3d_nil.
  - unfold intersection_triangle_triangle_3d.
    rewrite !triangle_segment_3d_nil, add_all_concat. simpl.
    now rewrite !app_nil_r.
  - unfold intersection_tetrahedron_segment_3d.
    rewrite !triangle_segment_3d_nil. unfold _add. simpl.
    now rewrite !app_nil_r.
  - unfold intersection_tetrahedron_triangle_3d.
    rewrite !triangle_segment_3d_nil, add_all_concat. simpl.
    now rewrite !app_nil_r.
  - unfold intersection_tetrahedron_tetrahedron_3d,
      tetrahedron_tetrahedron_segment_calls,
      tetrahedron_tetrahedron_point_calls.
    rewrite !triangle_segment_3d_nil, add_all_concat. simpl.
    now rewrite !app_nil_r.
Qed.


(** C9. In 1D, intersecting the segment (0,2) with the segment (1,3) gives
    the two boundary points 1 and 2 of the overlap (in the order 2, 1),
    directly and through the dispatch layer. *)
Theorem collinear_overlap_1d :
  orient1d_sign_exact PR ->
  intersection_segment_segment_1d 0 2 1 3 = [2; 1] /\
  intersection [Point1 0; Point1 2] [Point1 1; Point1 3] 1
    = Ok [Point1 2; Point1 1] /\
  (forall x : double,
     In x (intersection_segment_segment_1d 0 2 1 3) <-> x = 1 \/ x = 2).
Proof.
  intro H.
  assert (E : intersection_segment_segment_1d 0 2 1 3 = [2; 1]).
  { destruct (H 1 3 0) as (_ & A & _).
    destruct (H 1 3 2) as (_ & _ & B).
    destruct (H 0 2 1) as (_ & _ & C).
    destruct (H 0 2 3) as (D & _ & _).
    assert (A' := A ltac:(reflexivity)).
    assert (B' := B ltac:(split; discriminate)).
    assert (C' := C ltac:(split; discriminate)).
    assert (D' := D ltac:(reflexivity)).
    clear A B C D.
    unfold intersection_segment_segment_1d.
    set (p0o := orient1d 1 3 0) in *. set (p1o := orient1d 1 3 2) in *.
    set (q0o := orient1d 0 2 1) in *. set (q1o := orient1d 0 2 3) in *.
    assert (E1 : (p0o * p1o >? 0) = false).
    { apply Qltb_ge. rewrite B'. lra. }
    assert (E2 : (q0o * q1o >? 0) = false).
    { apply Qltb_ge. rewrite C'. lra. }
    rewrite E1, E2.
    apply Qeqb_eq in B', C'.
    assert (A2 : (p0o =? 0) = false) by (apply Qeqb_neq; lra).
    assert (D2 : (q1o =? 0) = false) by (apply Qeqb_neq; lra).
    cbn. rewrite A2, B', C', D2. reflexivity. }
  split; [exact E|]. split.
  - rewrite dispatch_segment_segment_1d. simpl x_. now rewrite E.
  - intro x. rewrite E. simpl. intuition congruence.
Qed.

(** C4. If the triple of topological dimensions and geometric dimension is
    not one of the supported combinations, the dispatch layer ends in
    [dolfin_error], whose message carries the two topological dimensions
    and the geometric dimension; it returns no point list. *)
Theorem unsupported_combination_is_fatal (p q : list Point) (gdim : Z) :
  ~ In (topological_dimension p, topological_dimension q, gdim)
       supported_combinations ->
  intersection p q gdim =
  Fatal (mk_dolfin_error
           "IntersectionConstruction.cpp"
           "compute intersection"
           "Not implemented for dimensions %d / %d and geometric dimension %d"
           [topological_dimension p; topological_dimension q; gdim]).
Proof.
  unfold intersection, topological_dimension, switch_gdim.
  remember (size_t_wrap (Z.of_nat (List.length p) - 1)) as d0 eqn:E0.
  remember (size_t_wrap (Z.of_nat (List.length q) - 1)) as d1 eqn:E1.
  clear E0 E1. intro H.
  destruct (Z.eqb_spec d0 1), (Z.eqb_spec d0 2), (Z.eqb_spec d0 3);
    try lia;
    destruct (Z.eqb_spec d1 1), (Z.eqb_spec d1 2), (Z.eqb_spec d1 3);
    try lia;
    destruct (Z.eqb_spec gdim 1), (Z.eqb_spec gdim 2), (Z.eqb_spec gdim 3);
    try lia; simpl; try reflexivity;
    exfalso; apply H; subst; simpl; tauto.
Qed.

(** X16. Every supported combination of topological dimensions and
    geometric dimension returns a point list: the dispatch layer does not
    end in [dolfin_error] on it. *)
Lemma supported_combination_returns (p q : list Point) (gdim : Z) :
  In (topological_dimension p, topological_dimension q, gdim)
     supported_combinations ->
  exists points, intersection p q gdim = Ok points.
Proof.
  unfold intersection, topological_dimension.
  remember (size_t_wrap (Z.of_nat (List.length p) - 1)) as d0 eqn:E0.
  remember (size_t_wrap (Z.of_nat (List.length q) - 1)) as d1 eqn:E1.
  clear E0 E1. intro H. simpl in H.
  repeat (destruct H as [H|H];
          [inversion H; subst; simpl; eexists; reflexivity|]).
  contradiction.
Qed.

(** C10. The overload on mesh entities calls the common implementation
    with the geometric dimension of the first entity's mesh.  Of the second
    entity only the topological dimension and the vertex coordinates are
    used: two second entities that agree on these give the same outcome,
    whatever the geometric dimensions of their meshes; in particular
    replacing the geometric dimension of the second mesh changes
    nothing. *)
Theorem entity_overload_uses_first_gdim_only
    (entity_0 entity_1 entity_1' : MeshEntity) (d : Z) :
  intersection_entities entity_0 entity_1 =
    intersection (entity_points entity_0) (entity_points entity_1)
                 (geometry_dim (geometry (mesh entity_0))) /\
  intersection_entities entity_0 (with_geometry_dim entity_1 d) =
    intersection_entities entity_0 entity_1 /\
  (dim entity_1 = dim entity_1' ->
   (forall i, (i <= dim entity_1)%nat ->
      geometry_point (geometry (mesh entity_1)) (entities_0 entity_1 i) =
      geometry_point (geometry (mesh entity_1')) (entities_0 entity_1' i)) ->
   intersection_entities entity_0 entity_1 =
   intersection_entities entity_0 entity_1').
Proof.
  split; [reflexivity|]. split; [reflexivity|].
  intros Hd Hv. unfold intersection_entities.
  rewrite <- Hd. f_equal.
  apply map_ext_in. intros i Hi. apply Hv.
  apply in_seq in Hi. lia.
Qed.



(** *** Exchanging the two arguments *)

Lemma segment_segment_1d_block (p0 p1 q0 q1 : double) :
  intersection_segment_segment_1d p0 p1 q0 q1 =
  if (orient1d q0 q1 p0 * orient1d q0 q1 p1 >? 0)
     || (orient1d p0 p1 q0 * orient1d p0 p1 q1 >? 0)
  then []
  else endpoint_block Qeq_bool p0 p1 q0 q1
         (orient1d q0 q1 p0 =? 0) (orient1d q0 q1 p1 =? 0)
         (orient1d p0 p1 q0 =? 0) (orient1d p0 p1 q1 =? 0).
Proof. reflexivity. Qed.


Lemma segment_segment_2d_endpoints_block
    (p0 p1 q0 q1 : Point) (p0o p1o q0o q1o po qo : double) :
  segment_segment_2d_endpoints p0 p1 q0 q1 p0o p1o q0o q1o po qo [] =
  let axis_q := major_axis_2d (q1 - q0)%P in
  let axis_p := major_axis_2d (p1 - p0)%P in
  endpoint_block Point_eqb p0 p1 q0 q1
    ((po =? 0) && ((p0o =? 0) &&
       collides_segment_point_1d (project_to_axis_2d q0 axis_q)
         (project_to_axis_2d q1 axis_q) (project_to_axis_2d p0 axis_q)))
    ((po =? 0) && ((p1o =? 0) &&
       collides_segment_point_1d (project_to_axis_2d q0 axis_q)
         (project_to_axis_2d q1 axis_q) (project_to_axis_2d p1 axis_q)))
    ((qo =? 0) && ((q0o =? 0) &&
       collides_segment_point_1d (project_to_axis_2d p0 axis_p)
         (project_to_axis_2d p1 axis_p) (project_to_axis_2d q0 axis_p)))
    ((qo =? 0) && ((q1o =? 0) &&
       collides_segment_point_1d (project_to_axis_2d p0 axis_p)
         (project_to_axis_2d p1 axis_p) (project_to_axis_2d q1 axis_p))).
Proof.
  unfold segment_segment_2d_endpoints, endpoint_block, add_if_equal.
  cbv zeta.
  destruct (p0 == q0)%P, (p0 == q1)%P, (p1 == q0)%P, (p1 == q1)%P;
    simpl; destruct (po =? 0), (qo =? 0); simpl;
    rewrite ?andb_assoc; reflexivity.
Qed.







(** *** Duplicates *)

(** A zero-length segment inside a tetrahedron is returned twice. *)
Lemma tetrahedron_segment_3d_twice (p0 p1 p2 p3 q : Point) :
  collides_tetrahedron_point_3d p0 p1 p2 p3 q = true ->
  intersection_tetrahedron_segment_3d p0 p1 p2 p3 q q = [q; q].
Proof.
  intro H. unfold intersection_tetrahedron_segment_3d.
  rewrite !triangle_segment_3d_nil.
  unfold intersection_tetrahedron_point_3d. rewrite H. reflexivity.
Qed.

(** X14. In 1D a zero-length segment on which [orient1d] vanishes, and
    which coincides with no end point of the other segment, is returned
    twice. *)
Lemma segment_segment_1d_twice (p q0 q1 : double) :
  orient1d q0 q1 p == 0 ->
  ~ p == q0 -> ~ p == q1 ->
  ~ 0 < orient1d p p q0 * orient1d p p q1 ->
  exists rest, intersection_segment_segment_1d p p q0 q1 = p :: p :: rest.
Proof.
  intros Ho N0 N1 Hq.
  unfold intersection_segment_segment_1d.
  assert (E1 : (orient1d q0 q1 p * orient1d q0 q1 p >? 0) = false).
  { apply Qltb_ge. rewrite Ho. lra. }
  assert (E2 : (orient1d p p q0 * orient1d p p q1 >? 0) = false).
  { apply Qltb_ge. apply Qnot_lt_le. exact Hq. }
  rewrite E1, E2. simpl orb. cbv iota.
  apply Qeqb_neq in N0, N1. apply Qeqb_eq in Ho.
  unfold add_if_equal. rewrite N0, N1. simpl. rewrite Ho. simpl.
  destruct (orient1d p p q0 =? 0), (orient1d p p q1 =? 0);
    eexists; reflexivity.
Qed.

(** X15. In 2D a zero-length segment on the supporting line of the other
    segment, within it along its major axis and coinciding with none of
    its end points, is returned twice. *)
Lemma segment_segment_2d_twice (p q0 q1 : Point) :
  let major_axis := major_axis_2d (q1 - q0)%P in
  orient2d q0 q1 p == 0 ->
  (p == q0)%P = false -> (p == q1)%P = false ->
  ~ 0 < orient2d p p q0 * orient2d p p q1 ->
  collides_segment_point_1d (project_to_axis_2d q0 major_axis)
    (project_to_axis_2d q1 major_axis) (project_to_axis_2d p major_axis)
  = true ->
  exists rest, intersection_segment_segment_2d p p q0 q1 = p :: p :: rest.
Proof.
  intros major_axis Ho N0 N1 Hq Hc.
  unfold intersection_segment_segment_2d.
  assert (E1 : (orient2d q0 q1 p * orient2d q0 q1 p >? 0) = false).
  { apply Qltb_ge. rewrite Ho. lra. }
  assert (E2 : (orient2d p p q0 * orient2d p p q1 >? 0) = false).
  { apply Qltb_ge. apply Qnot_lt_le. exact Hq. }
  assert (E3 : (orient2d q0 q1 p * orient2d q0 q1 p =? 0) = true).
  { apply Qeqb_eq. rewrite Ho. lra. }
  rewrite E1, E2, E3. simpl orb. cbv iota.
  unfold segment_segment_2d_endpoints, add_if_equal.
  rewrite N0, N1. simpl negb. cbv iota. cbv zeta.
  fold major_axis. rewrite E3, Hc.
  apply Qeqb_eq in Ho. rewrite Ho. simpl.
  repeat match goal with
  | |- context [if ?c then _ else _] => destruct c
  end; eexists; reflexivity.
Qed.

(** X18. The composite intersectors that end in [_unique_points] return no
    two equal points. *)
Lemma deduplicating_intersectors_duplicate_free :
  (forall p0 p1 p2 q0 q1,
     duplicate_free (intersection_triangle_segment_2d p0 p1 p2 q0 q1)
     = true) /\
  (forall p0 p1 p2 q0 q1 q2,
     duplicate_free (intersection_triangle_triangle_2d p0 p1 p2 q0 q1 q2)
     = true) /\
  (forall p0 p1 p2 q0 q1 q2,
     duplicate_free (intersection_triangle_triangle_3d p0 p1 p2 q0 q1 q2)
     = true) /\
  (forall p0 p1 p2 p3 q0 q1 q2,
     duplicate_free
       (intersection_tetrahedron_triangle_3d p0 p1 p2 p3 q0 q1 q2)
     = true) /\
  (forall p0 p1 p2 p3 q0 q1 q2 q3,
     duplicate_free
       (intersection_tetrahedron_tetrahedron_3d p0 p1 p2 p3 q0 q1 q2 q3)
     = true).
Proof.
  repeat split; intros; apply unique_points_duplicate_free.
Qed.

End Properties.

(* ------------------------------------------------------------------ *)
(** ** Independence of the choice of major axis *)

(** Whatever axis [major_axis_2d] picks for the zero vector, a degenerate
    segment on the line of an axis-parallel segment drags an end point of
    that segment into the result: on the vertical one if the axis is the
    first, on the horizontal one if it is the second. *)
Ltac run_endpoint_block H Hp :=
  unfold intersection_segment_segment_2d;
  match goal with
  | |- context [if ?c then [] else _] =>
      replace c with false by (vm_compute; reflexivity)
  end;
  match goal with
  | |- context [if ?c
                then segment_segment_2d_endpoints _ _ _ _ _ _ _ _ _ _ _
                else _] =>
      replace c with true by (vm_compute; reflexivity)
  end;
  rewrite segment_segment_2d_endpoints_block; cbv zeta;
  rewrite H, !Hp;
  match goal with
  | |- context [endpoint_block _ _ _ _ _ ?c0 ?c1 ?c2 ?c3] =>
      generalize c0; generalize c1;
      replace c2 with true by (vm_compute; reflexivity)
  end;
  intros [|] [|]; vm_compute; reflexivity.

Lemma degenerate_segment_any_major_axis (GT : GeometryTools) :
  (forall p axis, project_to_axis_2d p axis = coord p axis) ->
  (major_axis_2d (Inputs.centre - Inputs.centre)%P = 0%nat \/
   major_axis_2d (Inputs.centre - Inputs.centre)%P = 1%nat) ->
  mem Inputs.south (@intersection_segment_segment_2d
               Reference.predicates Reference.collision GT Reference.constants
               Inputs.centre Inputs.centre Inputs.south Inputs.north) = true \/
  mem Inputs.west (@intersection_segment_segment_2d
              Reference.predicates Reference.collision GT Reference.constants
              Inputs.centre Inputs.centre Inputs.west Inputs.east) = true.
Proof.
  intros Hp [H|H]; [left|right]; run_endpoint_block H Hp.
Qed.

(* ------------------------------------------------------------------ *)
(** ** The code on concrete inputs, with the reference collaborators *)

Module Examples.

Import Reference.
Import Inputs.

Lemma reference_orient1d_sign_exact : orient1d_sign_exact Reference.predicates.
Proof.
  intros a b x. simpl. unfold Reference.orient1d.
  repeat split.
  - intro H. apply Qgtb_gt in H. rewrite H. reflexivity.
  - intro H.
    destruct (x >? Qmax a b) eqn:E1.
    + apply Qgtb_gt in E1.
      assert (Qmin a b <= Qmax a b).
      { eapply Qle_trans; [apply Q.le_min_l | apply Q.le_max_l]. }
      lra.
    + apply Qltb_lt in H. rewrite H. reflexivity.
  - intros [H1 H2].
    assert (E1 : (x >? Qmax a b) = false) by (apply Qltb_ge; exact H2).
    assert (E2 : (x <? Qmin a b) = false) by (apply Qltb_ge; exact H1).
    rewrite E1, E2. reflexivity.
Qed.


Lemma collinear_overlap_1d_witness :
  orient1d_sign_exact Reference.predicates /\
  intersection_segment_segment_1d 0 2 1 3 = [2; 1] /\
  intersection [Point1 0; Point1 2] [Point1 1; Point1 3] 1
    = Ok [Point1 2; Point1 1].
Proof.
  split; [exact reference_orient1d_sign_exact|].
  destruct (collinear_overlap_1d reference_orient1d_sign_exact)
    as (R1 & R2 & _).
  split; assumption.
Defined.

Lemma unsupported_combination_is_fatal_witness :
  ~ In (topological_dimension [a0], topological_dimension [b0; b1], 2%Z)
       supported_combinations /\
  intersection [a0] [b0; b1] 2 =
  Fatal (mk_dolfin_error
           "IntersectionConstruction.cpp"
           "compute intersection"
           "Not implemented for dimensions %d / %d and geometric dimension %d"
           [0%Z; 1%Z; 2%Z]).
Proof.
  assert (H : ~ In (topological_dimension [a0],
                    topological_dimension [b0; b1], 2%Z)
                   supported_combinations).
  { vm_compute. intuition discriminate. }
  split; [exact H|].
  exact (unsupported_combination_is_fatal [a0] [b0; b1] 2%Z H).
Defined.








(** With equal squared lengths the two orders use different [num]: here
    the stability guard holds in one order and not in the other. *)
Lemma tied_lengths_order_dependent :
  lengths_differ u0 u1 v0 v1 = false /\
  intersection [u0; u1] [v0; v1] 2 = Ok [ (0.5 * (u0 + v1))%P ] /\
  ~ same_outcome (intersection [u0; u1] [v0; v1] 2)
                 (intersection [v0; v1] [u0; u1] 2).
Proof.
  split; [reflexivity|]. split; [reflexivity|].
  intro H. specialize (H (0.5 * (u0 + v1))%P).
  vm_compute in H. discriminate H.
Qed.

Lemma entity_overload_uses_first_gdim_only_witness :
  dim cell_1_3 = dim (with_geometry_dim cell_1_3 3) /\
  intersection_entities cell_0_2 cell_1_3 =
  intersection_entities cell_0_2 (with_geometry_dim cell_1_3 3).
Proof.
  split; [reflexivity|].
  refine (proj2 (proj2 (entity_overload_uses_first_gdim_only
                          cell_0_2 cell_1_3 (with_geometry_dim cell_1_3 3)
                          0%Z)) eq_refl _).
  intros i Hi. reflexivity.
Defined.

(** C2 (the code at the failing inputs). A zero-length segment inside
    another segment is returned twice by the 2D and by the 1D intersector,
    through the dispatch layer, and the tetrahedron-segment intersector,
    which does not call [_unique_points], returns a zero-length segment
    inside the tetrahedron twice. *)
Theorem degenerate_segment_returned_twice :
  intersection [centre; centre] [south_west; north_east] 2
    = Ok [centre; centre] /\
  intersection [Point1 1; Point1 1] [Point1 0; Point1 2] 1
    = Ok [Point1 1; Point1 1] /\
  intersection_tetrahedron_segment_3d t0 t1 t2 t3 inner inner
    = [inner; inner] /\
  duplicate_free [centre; centre] = false /\
  duplicate_free [Point1 1; Point1 1] = false /\
  duplicate_free [inner; inner] = false.
Proof. repeat split; reflexivity. Qed.

(** C8 (the code at the failing inputs). On the example of the
    specification the 2D intersector returns the point (twice); but when
    the degenerate segment lies on the line of a vertical segment, the
    two end points of that segment are returned as well, whether the point
    is on the segment or beyond it. *)
Theorem degenerate_segment_on_vertical_line :
  intersection_segment_segment_2d centre centre west east
    = [centre; centre] /\
  intersection_segment_segment_2d centre centre south north
    = [centre; centre; south; north] /\
  intersection [centre; centre] [south; north] 2
    = Ok [centre; centre; south; north] /\
  intersection_segment_segment_2d above above south north
    = [south; north] /\
  same_points [centre; centre] [centre] /\
  ~ same_points [centre; centre; south; north] [centre] /\
  ~ same_points [south; north] [].
Proof.
  split; [reflexivity|]. split; [reflexivity|]. split; [reflexivity|].
  split; [reflexivity|]. split; [|split].
  - intro x. unfold mem. simpl. now destruct (x == centre)%P.
  - intro H. specialize (H south). vm_compute in H. discriminate H.
  - intro H. specialize (H south). vm_compute in H. discriminate H.
Qed.

End Examples.

(* ------------------------------------------------------------------ *)
(** ** Further properties of the code *)

(** *** [_unique_points] *)

Lemma unique_points_fixed (l : list Point) :
  duplicate_free l = true -> _unique_points l = l.
Proof.
  induction l as [|y l IH]; [reflexivity|].
  simpl. intro H. apply andb_true_iff in H. destruct H as [H1 H2].
  apply negb_true_iff in H1. unfold mem in H1. rewrite H1. simpl.
  now rewrite IH.
Qed.

Lemma existsb_snoc (y x : Point) (l : list Point) :
  existsb (fun z => (y == z)%P) (l ++ [x]) =
  existsb (fun z => (y == z)%P) l || (y == x)%P.
Proof. rewrite existsb_app. simpl. now rewrite orb_false_r. Qed.

Lemma unique_points_incl (l : list Point) (x : Point) :
  In x (_unique_points l) -> In x l.
Proof.
  induction l as [|y l IH]; [tauto|].
  simpl. destruct (existsb _ l); simpl; intuition.
Qed.

Lemma unique_points_length (l : list Point) :
  (List.length (_unique_points l) <= List.length l)%nat.
Proof.
  induction l as [|y l IH]; [apply Nat.le_refl|].
  simpl. destruct (existsb _ l); simpl; lia.
Qed.

(** X1. [_unique_points] returns a list without two equal points that has
    the same points as its input, up to [==]; every element of the result
    is an element of the input, and the result is no longer than the
    input. *)
Theorem unique_points_same_set_no_duplicates (l : list Point) :
  duplicate_free (_unique_points l) = true /\
  same_points (_unique_points l) l /\
  (forall x, In x (_unique_points l) -> In x l) /\
  (List.length (_unique_points l) <= List.length l)%nat.
Proof.
  split; [apply unique_points_duplicate_free|].
  split; [intro x; apply mem_unique_points|].
  split; [intro x; apply unique_points_incl | apply unique_points_length].
Qed.

(** X2. [_unique_points] leaves a list without two equal points as it is;
    so running it twice gives what running it once gives. *)
Theorem unique_points_idempotent (l : list Point) :
  (duplicate_free l = true -> _unique_points l = l) /\
  _unique_points (_unique_points l) = _unique_points l.
Proof.
  split; [apply unique_points_fixed|].
  apply unique_points_fixed, unique_points_duplicate_free.
Qed.

(** X3. Of several equal points [_unique_points] keeps the last: after a
    [push_back] of [x], the result is the result before it without the
    points equal to [x], followed by [x]. *)
Theorem unique_points_push_back (l : list Point) (x : Point) :
  _unique_points (l ++ [x]) =
  filter (fun y => negb (y == x)%P) (_unique_points l) ++ [x].
Proof.
  induction l as [|y l IH]; [reflexivity|].
  simpl app. simpl _unique_points. rewrite existsb_snoc.
  destruct (existsb (fun z => (y == z)%P) l) eqn:F; simpl.
  - exact IH.
  - destruct (y == x)%P eqn:E; simpl; rewrite IH; reflexivity.
Qed.

(** *** The end point block of the segment-segment intersectors *)

Section EndpointBlockElements.

Variable T : Type.
Variable eqb : T -> T -> bool.
Hypothesis eqb_sym : forall a b, eqb a b = eqb b a.
Hypothesis eqb_trans :
  forall a b c, eqb a b = true -> eqb b c = true -> eqb a c = true.

Ltac chain2 x :=
  match goal with
  | X : eqb x ?a = true, E : eqb ?a ?b = true, Y : eqb x ?b = false |- _ =>
      rewrite (eqb_trans _ _ _ X E) in Y; discriminate Y
  | X : eqb x ?b = true, E : eqb ?a ?b = true, Y : eqb x ?a = false |- _ =>
      rewrite eqb_sym in E;
      rewrite (eqb_trans _ _ _ X E) in Y; discriminate Y
  end.

Lemma endpoint_block_mem (x p0 p1 q0 q1 : T) (c0 c1 c2 c3 : bool) :
  existsb (eqb x) (endpoint_block eqb p0 p1 q0 q1 c0 c1 c2 c3) =
  ((eqb p0 q0 || eqb p0 q1 || c0) && eqb x p0)
  || ((eqb p1 q0 || eqb p1 q1 || c1) && eqb x p1)
  || ((eqb p0 q0 || eqb p1 q0 || c2) && eqb x q0)
  || ((eqb p0 q1 || eqb p1 q1 || c3) && eqb x q1).
Proof.
  unfold endpoint_block, add_if_equal.
  destruct (eqb p0 q0) eqn:E00, (eqb p0 q1) eqn:E01,
           (eqb p1 q0) eqn:E10, (eqb p1 q1) eqn:E11; simpl;
  destruct c0, c1, c2, c3; simpl; try reflexivity;
  destruct (eqb x p0) eqn:X0, (eqb x p1) eqn:X1,
           (eqb x q0) eqn:Y0, (eqb x q1) eqn:Y1; simpl;
  try reflexivity; chain2 x.
Qed.


End EndpointBlockElements.

Lemma Qgtb_product (a b : double) :
  (a * b >? 0) = ((a >? 0) && (b >? 0)) || ((a <? 0) && (b <? 0)).
Proof.
  destruct (a >? 0) eqn:A1, (a <? 0) eqn:A2, (b >? 0) eqn:B1, (b <? 0) eqn:B2;
    simpl;
    repeat match goal with
    | H : (_ >? _) = true |- _ => apply Qgtb_gt in H
    | H : (_ >? _) = false |- _ => apply Qltb_ge in H
    | H : (_ <? _) = true |- _ => apply Qltb_lt in H
    | H : (_ <? _) = false |- _ => apply Qltb_ge in H
    end;
    try lra;
    first [ apply Qgtb_gt; nra | apply Qltb_ge; nra ].
Qed.

Lemma Qmin_Qmax_bounds (a b : double) :
  Qmin a b <= a /\ Qmin a b <= b /\ a <= Qmax a b /\ b <= Qmax a b /\
  ((Qmin a b == a /\ Qmax a b == b) \/ (Qmin a b == b /\ Qmax a b == a)).
Proof.
  destruct (Q.max_spec a b) as [[M1 M2]|[M1 M2]];
  destruct (Q.min_spec a b) as [[M3 M4]|[M3 M4]];
  repeat split; try lra; first [left; split; lra | right; split; lra].
Qed.

Lemma absorb (e c : bool) : (e = true -> c = true) -> e || c = c.
Proof. destruct e, c; intuition. Qed.



Lemma singleton_duplicate_free (l : list Point) :
  List.length l = 1%nat -> duplicate_free l = true.
Proof. destruct l as [|a [|b l]]; try discriminate. reflexivity. Qed.

Lemma swapped_same_point (p0 p1 : Point) (num nums den : double) :
  num + nums == den -> ~ den == 0 ->
  ((p0 + (nums / den) * (p1 - p0)) == (p1 + (num / den) * (p0 - p1)))%P
  = true.
Proof.
  intros E D. unfold Point_eqb. simpl.
  assert (N : nums == den - num) by lra.
  rewrite !andb_true_iff.
  repeat split; apply Qeqb_eq; rewrite N; field; exact D.
Qed.

Lemma swapped_numerator (p0 p1 q0 q1 : Point) :
  let w := (p0 - p1)%P in
  let v := (q0 - q1)%P in
  let wv := cross w v in
  dot wv (cross v (p1 - q1)%P) + - dot wv (cross v (p0 - q1)%P)
  == squared_norm wv.
Proof.
  destruct p0, p1, q0, q1. unfold squared_norm, dot, cross. simpl. ring.
Qed.

Lemma mem_filter (f : Point -> bool) (x : Point) (l : list Point) :
  mem x (filter f l) = existsb (fun q => f q && (x == q)%P) l.
Proof.
  induction l as [|q l IH]; [reflexivity|].
  simpl. destruct (f q); simpl; now rewrite IH.
Qed.

Lemma concat_nils (calls : list (list Point)) :
  (forall c, In c calls -> c = []) -> List.concat calls = [].
Proof.
  induction calls as [|c calls IH]; intro H; [reflexivity|].
  simpl. rewrite (H c) by now left. apply IH. intros d Hd. apply H. now right.
Qed.

Section FurtherProperties.

Context {PR : Predicates} {CP : CollisionPredicates}
        {GT : GeometryTools} {CS : Constants}.

(** *** Point-point *)


(** *** Segment-segment, 1D *)

Lemma orient1d_cases (a b x : double) :
  orient1d_sign_exact PR ->
  (x < Qmin a b /\ orient1d a b x < 0) \/
  (Qmin a b <= x <= Qmax a b /\ orient1d a b x == 0) \/
  (Qmax a b < x /\ 0 < orient1d a b x).
Proof.
  intro H. destruct (H a b x) as (H1 & H2 & H3).
  destruct (Qlt_le_dec x (Qmin a b)) as [L|L]; [left; auto|].
  destruct (Qlt_le_dec (Qmax a b) x) as [G|G]; [right; right; auto|].
  right; left. auto.
Qed.

Lemma orient1d_zero_iff (a b x : double) :
  orient1d_sign_exact PR ->
  ((orient1d a b x =? 0) = true <-> Qmin a b <= x <= Qmax a b).
Proof.
  intro H. rewrite Qeqb_eq.
  destruct (orient1d_cases a b x H) as [[A B]|[[A B]|[A B]]];
    split; intros; try assumption; try lra.
Qed.

Lemma orient1d_positive_product (a b x y : double) :
  orient1d_sign_exact PR ->
  (orient1d a b x * orient1d a b y >? 0) = true ->
  (x < Qmin a b /\ y < Qmin a b) \/ (Qmax a b < x /\ Qmax a b < y).
Proof.
  intros H P. rewrite Qgtb_product in P.
  apply orb_true_iff in P. rewrite !andb_true_iff in P.
  rewrite !Qgtb_gt, !Qltb_lt in P.
  destruct (orient1d_cases a b x H) as [[A B]|[[A B]|[A B]]];
  destruct (orient1d_cases a b y H) as [[C D]|[[C D]|[C D]]];
    try (left; split; assumption); try (right; split; assumption);
    exfalso; lra.
Qed.

(** X4. With a sign-exact [orient1d], the 1D segment-segment intersector
    returns exactly the end points of either segment that lie within the
    other segment: [x] is among the returned values iff it equals such an
    end point. *)
Theorem segment_segment_1d_end_points_inside (p0 p1 q0 q1 x : double) :
  orient1d_sign_exact PR ->
  (existsb (Qeq_bool x) (intersection_segment_segment_1d p0 p1 q0 q1) = true
   <->
   (x == p0 /\ Qmin q0 q1 <= p0 <= Qmax q0 q1) \/
   (x == p1 /\ Qmin q0 q1 <= p1 <= Qmax q0 q1) \/
   (x == q0 /\ Qmin p0 p1 <= q0 <= Qmax p0 p1) \/
   (x == q1 /\ Qmin p0 p1 <= q1 <= Qmax p0 p1)).
Proof.
  intro H.
  pose proof (Qmin_Qmax_bounds p0 p1) as (P1 & P2 & P3 & P4 & P5).
  pose proof (Qmin_Qmax_bounds q0 q1) as (Q1 & Q2 & Q3 & Q4 & Q5).
  rewrite segment_segment_1d_block.
  destruct (_ || _) eqn:T.
  - simpl. split; [discriminate|]. intro D. exfalso.
    apply orb_true_iff in T. destruct T as [T|T];
      apply (orient1d_positive_product _ _ _ _ H) in T;
      destruct T as [[T1 T2]|[T1 T2]];
      destruct P5 as [[P5 P6]|[P5 P6]]; destruct Q5 as [[Q5 Q6]|[Q5 Q6]];
      lra.
  - rewrite (endpoint_block_mem _ _ Qeqb_sym Qeqb_trans).
    assert (Z : forall a b y z, (y =? z) = true ->
              (z = a \/ z = b) -> (orient1d a b y =? 0) = true).
    { intros a b y z E Hz. apply (orient1d_zero_iff _ _ _ H).
      apply Qeqb_eq in E.
      pose proof (Qmin_Qmax_bounds a b) as (B1 & B2 & B3 & B4 & _).
      destruct Hz; subst z; lra. }
    rewrite <- !orb_assoc.
    rewrite (absorb (p0 =? q1)) by (intro E; eapply Z; eauto).
    rewrite (absorb (p0 =? q0)) by (intro E; eapply Z; eauto).
    rewrite (absorb (p1 =? q1)) by (intro E; eapply Z; eauto).
    rewrite (absorb (p1 =? q0)) by (intro E; eapply Z; eauto).
    rewrite (absorb (p1 =? q0) (orient1d p0 p1 q0 =? 0))
      by (rewrite Qeqb_sym; intro E; eapply Z; eauto).
    rewrite (absorb (p0 =? q0) (orient1d p0 p1 q0 =? 0))
      by (rewrite Qeqb_sym; intro E; eapply Z; eauto).
    rewrite (absorb (p1 =? q1) (orient1d p0 p1 q1 =? 0))
      by (rewrite Qeqb_sym; intro E; eapply Z; eauto).
    rewrite (absorb (p0 =? q1) (orient1d p0 p1 q1 =? 0))
      by (rewrite Qeqb_sym; intro E; eapply Z; eauto).
    rewrite !orb_true_iff, !andb_true_iff, !Qeqb_eq.
    rewrite <- !(orient1d_zero_iff _ _ _ H), !Qeqb_eq.
    tauto.
Qed.

(** *** Segment-segment, 1D and 2D: what is returned *)


(** *** Segment-segment, 2D: the main case *)


(** *** Segment-segment, 3D *)

Lemma segment_segment_3d_no_duplicates (p0 p1 q0 q1 : Point) :
  duplicate_free (intersection_segment_segment_3d p0 p1 q0 q1) = true /\
  (List.length (intersection_segment_segment_3d p0 p1 q0 q1) <= 4)%nat.
Proof.
  assert (U : forall l, (List.length l <= 4)%nat ->
              duplicate_free (_unique_points l) = true /\
              (List.length (_unique_points l) <= 4)%nat).
  { intros l Hl. split; [apply unique_points_duplicate_free|].
    eapply Nat.le_trans; [apply unique_points_length | exact Hl]. }
  unfold intersection_segment_segment_3d.
  destruct (negb _); [split; [reflexivity | simpl; lia]|].
  destruct (_ && _); [split; [reflexivity | simpl; lia]|].
  destruct (_ && _); [split; [reflexivity | simpl; lia]|].
  destruct (collides_segment_point_3d q0 q1 p0),
           (collides_segment_point_3d q0 q1 p1),
           (collides_segment_point_3d p0 p1 q0),
           (collides_segment_point_3d p0 p1 q1);
    cbn [app List.length Nat.eqb Nat.ltb Nat.leb];
    try (split; [reflexivity | simpl; lia]);
    try (apply U; simpl; lia).
  apply U.
  repeat match goal with
  | |- context [if ?c then _ else _] => destruct c
  end; simpl; lia.
Qed.

(** X7. The 3D segment-segment intersector returns at most four points, no
    two of them equal; nothing when the collision predicate finds no
    collision; and a zero-length first segment that lies on the second is
    returned once. *)
Theorem segment_segment_3d_shape (p0 p1 q0 q1 : Point) :
  duplicate_free (intersection_segment_segment_3d p0 p1 q0 q1) = true /\
  (List.length (intersection_segment_segment_3d p0 p1 q0 q1) <= 4)%nat /\
  (collides_segment_segment_3d p0 p1 q0 q1 = false ->
   intersection_segment_segment_3d p0 p1 q0 q1 = []) /\
  ((p0 == p1)%P = true ->
   collides_segment_segment_3d p0 p1 q0 q1 = true ->
   collides_segment_point_3d q0 q1 p0 = true ->
   intersection_segment_segment_3d p0 p1 q0 q1 = [p0]).
Proof.
  destruct (segment_segment_3d_no_duplicates p0 p1 q0 q1) as [D L].
  split; [exact D|]. split; [exact L|].
  unfold intersection_segment_segment_3d. split.
  - intro H. now rewrite H.
  - intros H1 H2 H3. now rewrite H1, H2, H3.
Qed.

(** X8. When the segments collide and no end point of one lies on the
    other, the 3D intersector returns nothing if [den] is zero, and
    otherwise the one point [p1 + num/den * (p0 - p1)]: the branch taken
    when the fraction is close to 1, which starts from [p0] instead,
    computes the same point. *)
Theorem segment_segment_3d_formula_point (p0 p1 q0 q1 : Point) :
  let w := (p0 - p1)%P in
  let v := (q0 - q1)%P in
  let u := (p1 - q1)%P in
  let wv := cross w v in
  let vu := cross v u in
  let den := squared_norm wv in
  let num := dot wv vu in
  collides_segment_segment_3d p0 p1 q0 q1 = true ->
  collides_segment_point_3d q0 q1 p0 = false ->
  collides_segment_point_3d q0 q1 p1 = false ->
  collides_segment_point_3d p0 p1 q0 = false ->
  collides_segment_point_3d p0 p1 q1 = false ->
  (den == 0 -> intersection_segment_segment_3d p0 p1 q0 q1 = []) /\
  (~ den == 0 ->
   exists x, intersection_segment_segment_3d p0 p1 q0 q1 = [x] /\
             (x == p1 + (num / den) * (p0 - p1))%P = true).
Proof.
  intros w v u wv vu den num Hc H0 H1 H2 H3.
  unfold intersection_segment_segment_3d.
  rewrite Hc, H0, H1, H2, H3. rewrite !andb_false_r.
  cbn [negb app List.length Nat.eqb Nat.ltb Nat.leb].
  fold w v u. fold wv. fold vu. fold den. fold num.
  split.
  - intro D. apply Qeqb_eq in D. rewrite D. cbn [andb negb].
    destruct (num =? 0); reflexivity.
  - intro D. pose proof D as D'. apply Qeqb_neq in D'. rewrite D'.
    cbn [andb negb app _unique_points existsb].
    eexists. split; [reflexivity|].
    destruct (Qabs (num / den - 1) <? DOLFIN_EPS_LARGE).
    + apply swapped_same_point; [|exact D].
      apply (swapped_numerator p0 p1 q0 q1).
    + apply Point_eqb_refl.
Qed.

(** *** The composite intersectors *)

Lemma mem_triangle_point_2d (x p0 p1 p2 q : Point) :
  mem x (intersection_triangle_point_2d p0 p1 p2 q) =
  collides_triangle_point_2d p0 p1 p2 q && (x == q)%P.
Proof.
  unfold intersection_triangle_point_2d.
  destruct (collides_triangle_point_2d p0 p1 p2 q); [|reflexivity].
  simpl. now rewrite orb_false_r.
Qed.

(** X9. The points of the 2D triangle-segment and triangle-triangle
    intersections, as sets: the vertices of one simplex that the other
    contains, and the points of the segment-segment intersections of the
    edges of the triangles. *)
Theorem triangle_2d_composites_elements (x : Point) :
  (forall p0 p1 p2 q0 q1,
     mem x (intersection_triangle_segment_2d p0 p1 p2 q0 q1) =
     mem x (filter (collides_triangle_point_2d p0 p1 p2) [q0; q1])
     || existsb (fun pe =>
                   mem x (intersection_segment_segment_2d
                            (fst pe) (snd pe) q0 q1))
                (triangle_edges p0 p1 p2)) /\
  (forall p0 p1 p2 q0 q1 q2,
     mem x (intersection_triangle_triangle_2d p0 p1 p2 q0 q1 q2) =
     mem x (filter (collides_triangle_point_2d p0 p1 p2) [q0; q1; q2])
     || mem x (filter (collides_triangle_point_2d q0 q1 q2) [p0; p1; p2])
     || existsb (fun pe =>
          existsb (fun qe =>
                     mem x (intersection_segment_segment_2d
                              (fst pe) (snd pe) (fst qe) (snd qe)))
                  (triangle_edges q0 q1 q2))
          (triangle_edges p0 p1 p2)).
Proof.
  split; intros.
  - unfold intersection_triangle_segment_2d, _add.
    rewrite mem_unique_points, !mem_app, !mem_triangle_point_2d, !mem_filter.
    cbn [existsb triangle_edges fst snd app mem].
    rewrite !orb_false_r, !orb_assoc. reflexivity.
  - unfold intersection_triangle_triangle_2d.
    rewrite mem_unique_points, mem_add_all, !mem_filter.
    cbn [existsb triangle_edges fst snd].
    rewrite !mem_triangle_point_2d.
    rewrite !orb_false_r, !orb_assoc. reflexivity.
Qed.

Lemma tetrahedron_point_calls_filter (p0 p1 p2 p3 : Point) (qs : list Point) :
  List.concat (map (intersection_tetrahedron_point_3d p0 p1 p2 p3) qs) =
  filter (collides_tetrahedron_point_3d p0 p1 p2 p3) qs.
Proof.
  induction qs as [|q qs IH]; [reflexivity|].
  simpl. rewrite IH. unfold intersection_tetrahedron_point_3d.
  destruct (collides_tetrahedron_point_3d p0 p1 p2 p3 q); reflexivity.
Qed.

Lemma triangle_point_3d_calls_filter (p0 p1 p2 : Point) (qs : list Point) :
  List.concat (map (intersection_triangle_point_3d p0 p1 p2) qs) =
  filter (collides_triangle_point_3d p0 p1 p2) qs.
Proof.
  induction qs as [|q qs IH]; [reflexivity|].
  simpl. rewrite IH. unfold intersection_triangle_point_3d.
  destruct (collides_triangle_point_3d p0 p1 p2 q); reflexivity.
Qed.

(** X10. The tetrahedron-segment intersector returns the end points of the
    segment that the tetrahedron contains, in order and without removing
    duplicates: the triangle-segment calls contribute nothing. *)
Theorem tetrahedron_segment_3d_end_points_only (p0 p1 p2 p3 q0 q1 : Point) :
  intersection_tetrahedron_segment_3d p0 p1 p2 p3 q0 q1 =
  filter (collides_tetrahedron_point_3d p0 p1 p2 p3) [q0; q1].
Proof.
  unfold intersection_tetrahedron_segment_3d.
  rewrite !triangle_segment_3d_nil.
  rewrite <- tetrahedron_point_calls_filter.
  unfold _add. simpl. now rewrite !app_nil_r.
Qed.

(** X11. The 3D triangle-triangle intersector returns the vertices of
    each triangle that the other contains, without duplicates, and nothing
    else. *)
Theorem triangle_triangle_3d_vertices_only (p0 p1 p2 q0 q1 q2 : Point) :
  intersection_triangle_triangle_3d p0 p1 p2 q0 q1 q2 =
  _unique_points
    (filter (collides_triangle_point_3d p0 p1 p2) [q0; q1; q2] ++
     filter (collides_triangle_point_3d q0 q1 q2) [p0; p1; p2]).
Proof.
  unfold intersection_triangle_triangle_3d.
  rewrite !triangle_segment_3d_nil, add_all_concat.
  rewrite <- !triangle_point_3d_calls_filter.
  f_equal. simpl. now rewrite !app_nil_r, <- !app_assoc.
Qed.

(** X12. The tetrahedron-triangle intersector returns the vertices of the
    triangle that the tetrahedron contains and the vertices of the
    tetrahedron that the triangle contains, without duplicates, and
    nothing else. *)
Theorem tetrahedron_triangle_3d_vertices_only
    (p0 p1 p2 p3 q0 q1 q2 : Point) :
  intersection_tetrahedron_triangle_3d p0 p1 p2 p3 q0 q1 q2 =
  _unique_points
    (filter (collides_tetrahedron_point_3d p0 p1 p2 p3) [q0; q1; q2] ++
     filter (collides_triangle_point_3d q0 q1 q2) [p0; p1; p2; p3]).
Proof.
  unfold intersection_tetrahedron_triangle_3d.
  rewrite !triangle_segment_3d_nil, add_all_concat.
  rewrite <- triangle_point_3d_calls_filter, <- tetrahedron_point_calls_filter.
  f_equal. simpl. now rewrite !app_nil_r, <- !app_assoc.
Qed.

Lemma tetrahedron_tetrahedron_segment_calls_nil
    (p0 p1 p2 p3 q0 q1 q2 q3 : Point) :
  List.concat
    (tetrahedron_tetrahedron_segment_calls p0 p1 p2 p3 q0 q1 q2 q3) = [].
Proof.
  apply concat_nils. intros c Hc.
  unfold tetrahedron_tetrahedron_segment_calls in Hc.
  rewrite !triangle_segment_3d_nil in Hc.
  repeat (destruct Hc as [Hc|Hc]; [now symmetry|]). destruct Hc.
Qed.

(** X13. The tetrahedron-tetrahedron intersector returns the vertices of
    each tetrahedron that the other contains, without duplicates, and
    nothing else: the 48 triangle-segment calls contribute nothing. *)
Theorem tetrahedron_tetrahedron_3d_vertices_only
    (p0 p1 p2 p3 q0 q1 q2 q3 : Point) :
  intersection_tetrahedron_tetrahedron_3d p0 p1 p2 p3 q0 q1 q2 q3 =
  _unique_points
    (filter (collides_tetrahedron_point_3d p0 p1 p2 p3) [q0; q1; q2; q3] ++
     filter (collides_tetrahedron_point_3d q0 q1 q2 q3) [p0; p1; p2; p3]).
Proof.
  unfold intersection_tetrahedron_tetrahedron_3d.
  rewrite add_all_concat, concat_app.
  rewrite tetrahedron_tetrahedron_segment_calls_nil, app_nil_r.
  rewrite <- !tetrahedron_point_calls_filter.
  f_equal. unfold tetrahedron_tetrahedron_point_calls. simpl.
  now rewrite !app_nil_r, <- !app_assoc.
Qed.

(** *** The overload on mesh entities *)

(** X17. For entities whose topological dimensions fit in [std::size_t],
    the overload on mesh entities returns a point list exactly when the
    two topological dimensions and the geometric dimension of the first
    mesh form a supported combination; otherwise it ends in
    [dolfin_error]. *)
Theorem entity_overload_supported_iff (entity_0 entity_1 : MeshEntity) :
  (Z.of_nat (dim entity_0) < 2 ^ 64)%Z ->
  (Z.of_nat (dim entity_1) < 2 ^ 64)%Z ->
  ((exists points, intersection_entities entity_0 entity_1 = Ok points) <->
   In (Z.of_nat (dim entity_0), Z.of_nat (dim entity_1),
       geometry_dim (geometry (mesh entity_0)))
      supported_combinations).
Proof.
  intros H0 H1. unfold intersection_entities. cbv zeta.
  set (points_0 := map _ (seq 0 (dim entity_0 + 1))).
  set (points_1 := map _ (seq 0 (dim entity_1 + 1))).
  assert (L0 : List.length points_0 = (dim entity_0 + 1)%nat)
    by (subst points_0; now rewrite length_map, length_seq).
  assert (L1 : List.length points_1 = (dim entity_1 + 1)%nat)
    by (subst points_1; now rewrite length_map, length_seq).
  clearbody points_0 points_1.
  unfold intersection, switch_gdim. rewrite L0, L1.
  replace (size_t_wrap (Z.of_nat (dim entity_0 + 1) - 1))
    with (Z.of_nat (dim entity_0))
    by (unfold size_t_wrap; rewrite Z.mod_small; lia).
  replace (size_t_wrap (Z.of_nat (dim entity_1 + 1) - 1))
    with (Z.of_nat (dim entity_1))
    by (unfold size_t_wrap; rewrite Z.mod_small; lia).
  clear H0 H1 L0 L1.
  generalize (Z.of_nat (dim entity_0)) as d0.
  generalize (Z.of_nat (dim entity_1)) as d1.
  generalize (geometry_dim (geometry (mesh entity_0))) as gdim.
  intros gdim d1 d0.
  destruct (Z.eqb_spec d0 1), (Z.eqb_spec d0 2), (Z.eqb_spec d0 3);
    try lia;
    destruct (Z.eqb_spec d1 1), (Z.eqb_spec d1 2), (Z.eqb_spec d1 3);
    try lia;
    destruct (Z.eqb_spec gdim 1), (Z.eqb_spec gdim 2), (Z.eqb_spec gdim 3);
    try lia; subst; cbn [andb orelse];
    (split;
     [ intros [points H]; try discriminate H;
       cbn [In supported_combinations]; intuition congruence
     | intro H; first [ eexists; reflexivity
                      | exfalso; cbn [In supported_combinations] in H;
                        intuition congruence ] ]).
Qed.

End FurtherProperties.

(* ------------------------------------------------------------------ *)
(** ** Properties of the superseded implementations *)





Lemma for_each_app {A : Type} (rows : list A)
    (body : A -> list Point -> list Point) (g : A -> list Point) :
  (forall a pts, body a pts = pts ++ g a) ->
  forall pts, for_each rows body pts = pts ++ List.concat (map g rows).
Proof.
  intros H. unfold for_each.
  induction rows as [|a rows IH]; intro pts; simpl.
  - now rewrite app_nil_r.
  - rewrite IH, H. now rewrite app_assoc.
Qed.

Lemma for_range_app (n : nat)
    (body : nat -> list Point -> list Point) (g : nat -> list Point) :
  (forall i pts, body i pts = pts ++ g i) ->
  forall pts, for_range n body pts = pts ++ List.concat (map g (seq 0 n)).
Proof. intros H pts. apply (for_each_app (seq 0 n) body g H). Qed.

Lemma for_each_skip {A : Type} (rows : list A)
    (body : A -> list Point -> list Point) :
  (forall a pts, body a pts = pts) ->
  forall pts, for_each rows body pts = pts.
Proof.
  intros H. unfold for_each.
  induction rows as [|a rows IH]; intro pts; simpl; [reflexivity|].
  now rewrite H, IH.
Qed.

Lemma if_app_nil (c : bool) (pts : list Point) :
  (if c then pts ++ [] else pts) = pts.
Proof. destruct c; [apply app_nil_r | reflexivity]. Qed.

(** A loop whose body only appends points with property [P] yields the
    points it started from and points with property [P]. *)
Lemma for_each_In {A : Type} (rows : list A)
    (body : A -> list Point -> list Point) (P : Point -> Prop) :
  (forall a pts x, In a rows -> In x (body a pts) -> In x pts \/ P x) ->
  forall pts x, In x (for_each rows body pts) -> In x pts \/ P x.
Proof.
  unfold for_each.
  induction rows as [|a rows IH]; intros H pts x Hx; simpl in Hx.
  - now left.
  - apply IH in Hx.
    + destruct Hx as [Hx|Hx]; [|now right].
      apply (H a pts x); [now left | exact Hx].
    + intros b pts' y Hb. apply H. now right.
Qed.

Lemma for_range_In (n : nat)
    (body : nat -> list Point -> list Point) (P : Point -> Prop) :
  (forall i pts x, (i < n)%nat -> In x (body i pts) -> In x pts \/ P x) ->
  forall pts x, In x (for_range n body pts) -> In x pts \/ P x.
Proof.
  intros H. apply (for_each_In (seq 0 n) body P).
  intros i pts x Hi. apply H. apply in_seq in Hi. lia.
Qed.

Lemma In_if_push (c : bool) (pts : list Point) (y x : Point) :
  In x (if c then pts ++ [y] else pts) -> In x pts \/ (c = true /\ x = y).
Proof.
  destruct c; [|now left]. intro H. apply in_app_or in H.
  destruct H as [H|[H|[]]]; [now left | right; auto].
Qed.

Lemma mem_for_each_mono {A : Type} (rows : list A)
    (body : A -> list Point -> list Point) (x : Point) :
  (forall a pts, mem x pts = true -> mem x (body a pts) = true) ->
  forall pts, mem x pts = true -> mem x (for_each rows body pts) = true.
Proof.
  intro H. unfold for_each.
  induction rows as [|a rows IH]; intros pts Hx; simpl; [exact Hx|].
  apply IH, H, Hx.
Qed.

Lemma mem_if_app (c : bool) (pts l : list Point) (x : Point) :
  mem x pts = true -> mem x (if c then pts ++ l else pts) = true.
Proof.
  intro H. destruct c; [|exact H]. rewrite mem_app, H. reflexivity.
Qed.


Section LegacyProperties.

Context {PR : Predicates} {CP : CollisionPredicates}
        {GT : GeometryTools} {CS : Constants} {LC : LegacyCollaborators}.




(** X26. When the collision predicate finds a collision and the four end
    points have the same first coordinate, the superseded 2D intersector
    returns the values of the current 1D intersector on the second
    coordinates, each placed on that vertical line; likewise on a
    horizontal line, with the coordinates exchanged. *)
Theorem segment_segment_2d_old_axis_aligned (p0 p1 q0 q1 : Point) :
  collides_segment_segment_2d p0 p1 q0 q1 = true ->
  (x_ p0 == x_ p1 -> x_ p1 == x_ q0 -> x_ q0 == x_ q1 ->
   _intersection_segment_segment_2d_old p0 p1 q0 q1 =
   map (fun v => mkPoint (x_ p0) v 0)
       (intersection_segment_segment_1d (y_ p0) (y_ p1) (y_ q0) (y_ q1))) /\
  (~ (x_ p0 == x_ p1 /\ x_ p1 == x_ q0 /\ x_ q0 == x_ q1) ->
   y_ p0 == y_ p1 -> y_ p1 == y_ q0 -> y_ q0 == y_ q1 ->
   _intersection_segment_segment_2d_old p0 p1 q0 q1 =
   map (fun v => mkPoint v (y_ p0) 0)
       (intersection_segment_segment_1d (x_ p0) (x_ p1) (x_ q0) (x_ q1))).
Proof.
  intro Hc. unfold _intersection_segment_segment_2d_old.
  rewrite Hc. cbn [negb]. cbv iota. split.
  - intros A B C. apply Qeqb_eq in A, B, C.
    unfold segment_segment_2d_old_reduce at 1. cbn [coord].
    rewrite A, B, C. reflexivity.
  - intros N A B C.
    assert (R0 : segment_segment_2d_old_reduce p0 p1 q0 q1 0 = None).
    { unfold segment_segment_2d_old_reduce. cbn [coord].
      destruct (_ && _) eqn:R; [|reflexivity]. exfalso. apply N.
      apply andb_true_iff in R. destruct R as [R R3].
      apply andb_true_iff in R. destruct R as [R1 R2].
      apply Qeqb_eq in R1, R2, R3. auto. }
    rewrite R0. apply Qeqb_eq in A, B, C.
    unfold segment_segment_2d_old_reduce. cbn [coord].
    rewrite A, B, C. reflexivity.
Qed.

(** X21. The superseded 2D triangle-segment intersector calls the
    segment-segment intersector only on the edges that the collision
    predicate reports.  When the intersector returns nothing on the other
    edges, it returns the same list as the current one. *)
Theorem triangle_segment_2d_old_agrees (p0 p1 p2 q0 q1 : Point) :
  (forall a b,
     In (a, b) (triangle_edges p0 p1 p2) ->
     collides_segment_segment_2d a b q0 q1 = false ->
     intersection_segment_segment_2d a b q0 q1 = []) ->
  _intersection_triangle_segment_2d_old p0 p1 p2 q0 q1 =
  intersection_triangle_segment_2d p0 p1 p2 q0 q1.
Proof.
  intro H.
  assert (E : forall a b pts, In (a, b) (triangle_edges p0 p1 p2) ->
            (if collides_segment_segment_2d a b q0 q1
             then pts ++ intersection_segment_segment_2d a b q0 q1
             else pts) = pts ++ intersection_segment_segment_2d a b q0 q1).
  { intros a b pts I.
    destruct (collides_segment_segment_2d a b q0 q1) eqn:C; [reflexivity|].
    rewrite (H a b I C). now rewrite app_nil_r. }
  unfold _intersection_triangle_segment_2d_old,
    intersection_triangle_segment_2d, _add,
    intersection_triangle_point_2d.
  rewrite !E by (simpl; tauto).
  destruct (collides_triangle_point_2d p0 p1 p2 q0),
           (collides_triangle_point_2d p0 p1 p2 q1); reflexivity.
Qed.

(** X22. The superseded 2D triangle-triangle intersector returns nothing
    when the collision predicate finds no collision; it returns no two
    equal points; and every point it returns is a vertex of one of the
    triangles or a point of the segment-segment intersection of an edge of
    the first with an edge of the second triangle. *)
Theorem triangle_triangle_2d_old_shape (p0 p1 p2 q0 q1 q2 : Point) :
  let result := _intersection_triangle_triangle_2d_old p0 p1 p2 q0 q1 q2 in
  (collides_triangle_triangle_2d p0 p1 p2 q0 q1 q2 = false -> result = []) /\
  duplicate_free result = true /\
  (forall x, In x result ->
     In x [p0; p1; p2; q0; q1; q2] \/
     exists i j, (i < 3)%nat /\ (j < 3)%nat /\
       In x (intersection_segment_segment_2d
               (at_ [p0; p1; p2] i) (at_ [p0; p1; p2] ((i + 1) mod 3))
               (at_ [q0; q1; q2] j) (at_ [q0; q1; q2] ((j + 1) mod 3)))).
Proof.
  intro result. subst result.
  split; [|split].
  - intro H. unfold _intersection_triangle_triangle_2d_old. now rewrite H.
  - apply unique_points_duplicate_free.
  - intros x Hx. apply unique_points_incl in Hx.
    destruct (collides_triangle_triangle_2d p0 p1 p2 q0 q1 q2); [|destruct Hx].
    set (P := fun x : Point =>
      In x [p0; p1; p2; q0; q1; q2] \/
      exists i j, (i < 3)%nat /\ (j < 3)%nat /\
        In x (intersection_segment_segment_2d
                (at_ [p0; p1; p2] i) (at_ [p0; p1; p2] ((i + 1) mod 3))
                (at_ [q0; q1; q2] j) (at_ [q0; q1; q2] ((j + 1) mod 3)))).
    change (P x).
    assert (V0 : forall i, (i < 3)%nat -> P (at_ [p0; p1; p2] i)).
    { intros i Hi. left.
      destruct i as [|[|[|i]]]; [| | |lia]; simpl; tauto. }
    assert (V1 : forall i, (i < 3)%nat -> P (at_ [q0; q1; q2] i)).
    { intros i Hi. left.
      destruct i as [|[|[|i]]]; [| | |lia]; simpl; tauto. }
    cbv zeta in Hx.
    apply (for_range_In 3 _ P) in Hx.
    { destruct Hx as [Hx|Hx]; [|exact Hx].
      apply (for_range_In 3 _ P) in Hx.
      { destruct Hx as [Hx|Hx]; [|exact Hx].
        apply (for_range_In 3 _ P) in Hx.
        { destruct Hx as [Hx|Hx]; [|exact Hx].
          apply (for_range_In 3 _ P) in Hx.
          { destruct Hx as [[]|Hx]. exact Hx. }
          intros i pts y Hi. apply for_range_In.
          intros j pts' z Hj Hz. apply In_if_push in Hz.
          destruct Hz as [Hz|[_ ->]];
            [left; assumption | right; apply V0; assumption]. }
        intros i pts y Hi. apply for_range_In.
        intros j pts' z Hj Hz. cbv zeta in Hz.
        apply In_if_push in Hz. destruct Hz as [Hz|[_ ->]];
          [|right; apply V0; assumption].
        apply In_if_push in Hz. destruct Hz as [Hz|[_ ->]];
          [left; assumption | right; apply V1; assumption]. }
      intros i pts y Hi. apply for_range_In.
      intros j pts' z Hj Hz. cbv zeta in Hz. apply in_app_or in Hz.
      destruct Hz as [Hz|Hz]; [left; assumption|].
      right. right. exists i, j. repeat split; assumption. }
    intros i pts y Hi Hy. cbv zeta in Hy.
    match type of Hy with
    | In _ (if ?c then _ else _) => destruct c
    end;
    [ apply in_app_or in Hy; destruct Hy as [Hy|[<-|[]]];
      [|right; apply V1; assumption] | ];
    (match type of Hy with
     | In _ (if ?c then _ else _) => destruct c
     end;
     [ apply in_app_or in Hy; destruct Hy as [Hy|[<-|[]]];
       [left; assumption | right; apply V0; assumption]
     | left; assumption ]).
Qed.

Lemma remove_duplicate_nodes_incl (tol : double) (l : list Point) (x : Point) :
  In x (remove_duplicate_nodes tol l) -> In x l.
Proof.
  induction l as [|y l IH]; [tauto|].
  simpl. destruct (existsb _ l); simpl; intuition.
Qed.

Lemma remove_duplicate_nodes_length (tol : double) (l : list Point) :
  (List.length (remove_duplicate_nodes tol l) <= List.length l)%nat.
Proof.
  induction l as [|y l IH]; [apply Nat.le_refl|].
  simpl. destruct (existsb _ l); simpl; lia.
Qed.

(** X23. The superseded tetrahedron-triangle intersector returns only
    vertices of the triangle that the tetrahedron contains, at most three:
    its edge-triangle and edge-face loops add nothing, since
    [intersection_triangle_segment_3d] returns nothing, and what is left
    is the duplicate removal on the contained triangle vertices. *)
Theorem tetrahedron_triangle_3d_old_vertices_only
    (p0 p1 p2 p3 q0 q1 q2 : Point) :
  _intersection_tetrahedron_triangle_3d_old p0 p1 p2 p3 q0 q1 q2 =
    remove_duplicate_nodes DOLFIN_EPS
      (filter (collides_tetrahedron_point_3d p0 p1 p2 p3) [q0; q1; q2]) /\
  (forall x,
     In x (_intersection_tetrahedron_triangle_3d_old p0 p1 p2 p3 q0 q1 q2) ->
     In x [q0; q1; q2] /\
     collides_tetrahedron_point_3d p0 p1 p2 p3 x = true) /\
  (List.length
     (_intersection_tetrahedron_triangle_3d_old p0 p1 p2 p3 q0 q1 q2)
   <= 3)%nat.
Proof.
  assert (E : _intersection_tetrahedron_triangle_3d_old p0 p1 p2 p3 q0 q1 q2 =
    remove_duplicate_nodes DOLFIN_EPS
      (filter (collides_tetrahedron_point_3d p0 p1 p2 p3) [q0; q1; q2])).
  { unfold _intersection_tetrahedron_triangle_3d_old.
    cbv zeta.
    rewrite (for_each_skip tet_faces)
      by (intros f pts; apply for_each_skip; intros e pts';
          rewrite triangle_segment_3d_nil; apply if_app_nil).
    rewrite (for_each_skip tet_edges)
      by (intros e pts; rewrite triangle_segment_3d_nil; apply if_app_nil).
    unfold for_range. cbv [seq fold_left at_ nth filter app].
    destruct (collides_tetrahedron_point_3d p0 p1 p2 p3 q0),
             (collides_tetrahedron_point_3d p0 p1 p2 p3 q1),
             (collides_tetrahedron_point_3d p0 p1 p2 p3 q2); reflexivity. }
  split; [exact E|]. rewrite E. split.
  - intros x Hx. apply remove_duplicate_nodes_incl in Hx.
    apply filter_In in Hx. exact Hx.
  - eapply Nat.le_trans; [apply remove_duplicate_nodes_length|].
    eapply Nat.le_trans; [apply filter_length_le|]. simpl. lia.
Qed.

(** X24. The superseded tetrahedron-tetrahedron intersector writes the
    eight vertices to [std::cout], in order, on every call.  It returns no
    two equal points; every point of the current tetrahedron-tetrahedron
    intersection is among its points; and each of its points is a vertex
    of one tetrahedron that the other contains, or a point of the
    segment-segment intersection of two colliding edges. *)
Theorem tetrahedron_tetrahedron_3d_old_shape
    (p0 p1 p2 p3 q0 q1 q2 q3 : Point) :
  let old := _intersection_tetrahedron_tetrahedron_3d_old
               p0 p1 p2 p3 q0 q1 q2 q3 in
  map snd (fst old) = [p0; p1; p2; p3; q0; q1; q2; q3] /\
  duplicate_free (snd old) = true /\
  (forall x,
     mem x (intersection_tetrahedron_tetrahedron_3d
              p0 p1 p2 p3 q0 q1 q2 q3) = true ->
     mem x (snd old) = true) /\
  (forall x, In x (snd old) ->
     (In x [q0; q1; q2; q3] /\
      collides_tetrahedron_point_3d p0 p1 p2 p3 x = true) \/
     (In x [p0; p1; p2; p3] /\
      collides_tetrahedron_point_3d q0 q1 q2 q3 x = true) \/
     exists ei ej, In ei tet_edges /\ In ej tet_edges /\
       collides_segment_segment_3d
         (at_ [p0; p1; p2; p3] (fst ei)) (at_ [p0; p1; p2; p3] (snd ei))
         (at_ [q0; q1; q2; q3] (fst ej)) (at_ [q0; q1; q2; q3] (snd ej))
       = true /\
       In x (intersection_segment_segment_3d
               (at_ [p0; p1; p2; p3] (fst ei)) (at_ [p0; p1; p2; p3] (snd ei))
               (at_ [q0; q1; q2; q3] (fst ej))
               (at_ [q0; q1; q2; q3] (snd ej)))).
Proof.
  intro old. subst old.
  unfold _intersection_tetrahedron_tetrahedron_3d_old. cbv zeta.
  cbn [fst snd].
  rewrite (for_each_skip tet_edges
             (fun e => for_each tet_faces _))
    by (intros e pts; apply for_each_skip; intros f pts';
        rewrite !triangle_segment_3d_nil, !if_app_nil; reflexivity).
  set (nodes := for_range 4 _ []).
  assert (N : nodes =
    (if collides_tetrahedron_point_3d p0 p1 p2 p3 q0 then [q0] else []) ++
    (if collides_tetrahedron_point_3d q0 q1 q2 q3 p0 then [p0] else []) ++
    (if collides_tetrahedron_point_3d p0 p1 p2 p3 q1 then [q1] else []) ++
    (if collides_tetrahedron_point_3d q0 q1 q2 q3 p1 then [p1] else []) ++
    (if collides_tetrahedron_point_3d p0 p1 p2 p3 q2 then [q2] else []) ++
    (if collides_tetrahedron_point_3d q0 q1 q2 q3 p2 then [p2] else []) ++
    (if collides_tetrahedron_point_3d p0 p1 p2 p3 q3 then [q3] else []) ++
    (if collides_tetrahedron_point_3d q0 q1 q2 q3 p3 then [p3] else [])).
  { subst nodes.
    rewrite (for_range_app 4 _
      (fun i =>
         (if collides_tetrahedron_point_3d p0 p1 p2 p3
               (at_ [q0; q1; q2; q3] i)
          then [at_ [q0; q1; q2; q3] i] else []) ++
         (if collides_tetrahedron_point_3d q0 q1 q2 q3
               (at_ [p0; p1; p2; p3] i)
          then [at_ [p0; p1; p2; p3] i] else []))).
    - cbn [seq map List.concat at_ nth app]. now rewrite !app_nil_r, <- !app_assoc.
    - intros i pts. cbn [at_ nth].
      destruct (collides_tetrahedron_point_3d p0 p1 p2 p3 _),
               (collides_tetrahedron_point_3d q0 q1 q2 q3 _);
        cbn [app]; rewrite <- ?app_assoc, ?app_nil_r; reflexivity. }
  split; [reflexivity|].
  split; [apply unique_points_duplicate_free|].
  split.
  - intros x Hx. rewrite mem_unique_points.
    apply mem_for_each_mono.
    { intros ei pts H. apply mem_for_each_mono; [|exact H].
      intros ej pts' H'. apply mem_if_app, H'. }
    unfold intersection_tetrahedron_tetrahedron_3d in Hx.
    rewrite mem_unique_points, add_all_concat, concat_app in Hx.
    rewrite tetrahedron_tetrahedron_segment_calls_nil, app_nil_r in Hx.
    unfold tetrahedron_tetrahedron_point_calls,
      intersection_tetrahedron_point_3d in Hx.
    rewrite N. clear N nodes.
    destruct (collides_tetrahedron_point_3d p0 p1 p2 p3 q0),
             (collides_tetrahedron_point_3d p0 p1 p2 p3 q1),
             (collides_tetrahedron_point_3d p0 p1 p2 p3 q2),
             (collides_tetrahedron_point_3d p0 p1 p2 p3 q3),
             (collides_tetrahedron_point_3d q0 q1 q2 q3 p0),
             (collides_tetrahedron_point_3d q0 q1 q2 q3 p1),
             (collides_tetrahedron_point_3d q0 q1 q2 q3 p2),
             (collides_tetrahedron_point_3d q0 q1 q2 q3 p3);
      cbn [List.concat app mem existsb] in Hx |- *;
      repeat match type of Hx with
             | (?a || ?b) = true =>
                 let E := fresh "E" in
                 destruct a eqn:E; cbn [orb] in Hx
             end;
      try discriminate Hx;
      repeat match goal with
             | E : ?a = true |- context [?a] => rewrite E
             end;
      cbn [orb]; rewrite ?orb_true_r; reflexivity.
  - intros x Hx. apply unique_points_incl in Hx.
    set (P := fun x : Point =>
      exists ei ej, In ei tet_edges /\ In ej tet_edges /\
       collides_segment_segment_3d
         (at_ [p0; p1; p2; p3] (fst ei)) (at_ [p0; p1; p2; p3] (snd ei))
         (at_ [q0; q1; q2; q3] (fst ej)) (at_ [q0; q1; q2; q3] (snd ej))
       = true /\
       In x (intersection_segment_segment_3d
               (at_ [p0; p1; p2; p3] (fst ei)) (at_ [p0; p1; p2; p3] (snd ei))
               (at_ [q0; q1; q2; q3] (fst ej))
               (at_ [q0; q1; q2; q3] (snd ej)))).
    apply (for_each_In tet_edges _ P) in Hx.
    + destruct Hx as [Hx|Hx]; [|right; right; exact Hx].
      rewrite N in Hx. clear N nodes.
      repeat (apply in_app_or in Hx; destruct Hx as [Hx|Hx]);
        match type of Hx with
        | In _ (if ?c then _ else _) =>
            destruct c eqn:C; [|destruct Hx]
        end;
        destruct Hx as [<-|[]];
        [ left | right; left | left | right; left
        | left | right; left | left | right; left ];
        (split; [simpl; tauto | exact C]).
    + intros ei pts y Hei Hy.
      apply (for_each_In tet_edges _ P) in Hy; [exact Hy|].
      intros ej pts' z Hej Hz.
      match type of Hz with
      | In _ (if ?c then _ else _) => destruct c eqn:C
      end; [|left; exact Hz].
      apply in_app_or in Hz. destruct Hz as [Hz|Hz]; [left; exact Hz|].
      right. exists ei, ej. repeat split; assumption.
Qed.

End LegacyProperties.

(* ------------------------------------------------------------------ *)
(** ** The further properties on concrete inputs *)

Module FurtherExamples.

Import Reference.
Import LegacyReference.
Import Inputs.



Lemma unique_points_idempotent_witness :
  duplicate_free [a0; a1] = true /\ _unique_points [a0; a1] = [a0; a1].
Proof.
  assert (H : duplicate_free [a0; a1] = true) by reflexivity.
  split; [exact H|].
  exact (proj1 (unique_points_idempotent [a0; a1]) H).
Defined.

Lemma segment_segment_1d_end_points_inside_witness :
  orient1d_sign_exact Reference.predicates /\
  (1 == 1 /\ Qmin 0 2 <= 1 <= Qmax 0 2) /\
  existsb (Qeq_bool 1) (intersection_segment_segment_1d 0 2 1 3) = true.
Proof.
  assert (H : 1 == 1 /\ Qmin 0 2 <= 1 <= Qmax 0 2).
  { split; [reflexivity|]. split; vm_compute; discriminate. }
  split; [exact Examples.reference_orient1d_sign_exact|].
  split; [exact H|].
  apply (segment_segment_1d_end_points_inside 0 2 1 3 1
           Examples.reference_orient1d_sign_exact).
  right. right. left. exact H.
Defined.



Lemma segment_segment_3d_shape_witness :
  (centre == centre)%P = true /\
  Reference.collides_segment_segment_3d centre centre west east = true /\
  Reference.collides_segment_point_3d west east centre = true /\
  intersection_segment_segment_3d centre centre west east = [centre].
Proof.
  assert (H1 : (centre == centre)%P = true) by reflexivity.
  assert (H2 : Reference.collides_segment_segment_3d centre centre west east
               = true) by reflexivity.
  assert (H3 : Reference.collides_segment_point_3d west east centre = true)
    by reflexivity.
  split; [exact H1|]. split; [exact H2|]. split; [exact H3|].
  exact (proj2 (proj2 (proj2
           (segment_segment_3d_shape centre centre west east))) H1 H2 H3).
Defined.

Lemma segment_segment_3d_formula_point_witness :
  Reference.collides_segment_segment_3d a0 a1 b0 b1 = true /\
  Reference.collides_segment_point_3d b0 b1 a0 = false /\
  Reference.collides_segment_point_3d b0 b1 a1 = false /\
  Reference.collides_segment_point_3d a0 a1 b0 = false /\
  Reference.collides_segment_point_3d a0 a1 b1 = false /\
  exists x,
    intersection_segment_segment_3d a0 a1 b0 b1 = [x] /\
    (x == Point2 (1 # 2) (1 # 2))%P = true.
Proof.
  assert (Hc : Reference.collides_segment_segment_3d a0 a1 b0 b1 = true)
    by reflexivity.
  assert (H0 : Reference.collides_segment_point_3d b0 b1 a0 = false)
    by reflexivity.
  assert (H1 : Reference.collides_segment_point_3d b0 b1 a1 = false)
    by reflexivity.
  assert (H2 : Reference.collides_segment_point_3d a0 a1 b0 = false)
    by reflexivity.
  assert (H3 : Reference.collides_segment_point_3d a0 a1 b1 = false)
    by reflexivity.
  repeat (split; [assumption|]).
  assert (D : ~ squared_norm (cross (a0 - a1)%P (b0 - b1)%P) == 0)
    by (vm_compute; discriminate).
  destruct (proj2 (segment_segment_3d_formula_point
                     (CP := Reference.collision) a0 a1 b0 b1
                     Hc H0 H1 H2 H3) D) as (x & R & E).
  exists x. split; [exact R|].
  eapply Point_eqb_trans; [exact E | reflexivity].
Defined.

Lemma segment_segment_1d_twice_witness :
  Reference.orient1d 0 2 1 == 0 /\
  ~ 1 == 0 /\ ~ 1 == 2 /\
  ~ 0 < Reference.orient1d 1 1 0 * Reference.orient1d 1 1 2 /\
  exists rest, intersection_segment_segment_1d 1 1 0 2 = 1 :: 1 :: rest.
Proof.
  assert (Ho : Reference.orient1d 0 2 1 == 0) by reflexivity.
  assert (N0 : ~ 1 == 0) by (vm_compute; discriminate).
  assert (N1 : ~ 1 == 2) by (vm_compute; discriminate).
  assert (Hq : ~ 0 < Reference.orient1d 1 1 0 * Reference.orient1d 1 1 2)
    by (vm_compute; discriminate).
  repeat (split; [assumption|]).
  exact (segment_segment_1d_twice 1 0 2 Ho N0 N1 Hq).
Defined.

Lemma segment_segment_2d_twice_witness :
  Reference.orient2d west east centre == 0 /\
  (centre == west)%P = false /\ (centre == east)%P = false /\
  ~ 0 < Reference.orient2d centre centre west
        * Reference.orient2d centre centre east /\
  exists rest,
    intersection_segment_segment_2d centre centre west east
    = centre :: centre :: rest.
Proof.
  assert (Ho : Reference.orient2d west east centre == 0) by reflexivity.
  assert (N0 : (centre == west)%P = false) by reflexivity.
  assert (N1 : (centre == east)%P = false) by reflexivity.
  assert (Hq : ~ 0 < Reference.orient2d centre centre west
                     * Reference.orient2d centre centre east)
    by (vm_compute; discriminate).
  repeat (split; [assumption|]).
  apply (segment_segment_2d_twice (PR := Reference.predicates)
           (GT := Reference.tools) centre west east Ho N0 N1 Hq).
  reflexivity.
Defined.

Lemma supported_combination_returns_witness :
  In (topological_dimension [a0; a1], topological_dimension [b0; b1], 2%Z)
     supported_combinations /\
  exists points, intersection [a0; a1] [b0; b1] 2 = Ok points.
Proof.
  assert (H : In (topological_dimension [a0; a1],
                  topological_dimension [b0; b1], 2%Z)
                 supported_combinations).
  { vm_compute. right. left. reflexivity. }
  split; [exact H|].
  exact (supported_combination_returns [a0; a1] [b0; b1] 2%Z H).
Defined.

Lemma entity_overload_supported_iff_witness :
  (Z.of_nat (dim cell_0_2) < 2 ^ 64)%Z /\
  (Z.of_nat (dim cell_1_3) < 2 ^ 64)%Z /\
  In (Z.of_nat (dim cell_0_2), Z.of_nat (dim cell_1_3),
      geometry_dim (geometry (mesh cell_0_2)))
     supported_combinations /\
  exists points, intersection_entities cell_0_2 cell_1_3 = Ok points.
Proof.
  assert (H0 : (Z.of_nat (dim cell_0_2) < 2 ^ 64)%Z) by reflexivity.
  assert (H1 : (Z.of_nat (dim cell_1_3) < 2 ^ 64)%Z) by reflexivity.
  assert (H : In (Z.of_nat (dim cell_0_2), Z.of_nat (dim cell_1_3),
                  geometry_dim (geometry (mesh cell_0_2)))
                 supported_combinations).
  { vm_compute. right. left. reflexivity. }
  repeat (split; [assumption|]).
  exact (proj2 (entity_overload_supported_iff cell_0_2 cell_1_3 H0 H1) H).
Defined.



Lemma triangle_segment_2d_old_agrees_witness :
  (forall a b,
     In (a, b) (triangle_edges t0 t1 t2) ->
     LegacyReference.collides_segment_segment_2d a b south centre
     = false ->
     intersection_segment_segment_2d a b south centre = []) /\
  _intersection_triangle_segment_2d_old t0 t1 t2 south centre =
  intersection_triangle_segment_2d t0 t1 t2 south centre.
Proof.
  assert (H : forall a b,
     In (a, b) (triangle_edges t0 t1 t2) ->
     LegacyReference.collides_segment_segment_2d a b south centre
     = false ->
     intersection_segment_segment_2d a b south centre = []).
  { intros a b I C.
    destruct I as [I|[I|[I|[]]]]; inversion I; subst a b;
      first [ vm_compute in C; discriminate C | vm_compute; reflexivity ]. }
  split; [exact H|].
  exact (triangle_segment_2d_old_agrees
           (PR := Reference.predicates) (CP := Reference.collision)
           (GT := Reference.tools) (CS := Reference.constants)
           (LC := LegacyReference.collaborators) t0 t1 t2 south centre H).
Defined.


Lemma segment_segment_2d_old_axis_aligned_witness :
  LegacyReference.collides_segment_segment_2d south north centre above
  = true /\
  x_ south == x_ north /\ x_ north == x_ centre /\ x_ centre == x_ above /\
  _intersection_segment_segment_2d_old south north centre above =
  map (fun v => mkPoint 0 v 0) (intersection_segment_segment_1d (-1) 1 0 2).
Proof.
  assert (Hc : LegacyReference.collides_segment_segment_2d
                 south north centre above = true) by reflexivity.
  assert (A : x_ south == x_ north) by reflexivity.
  assert (B : x_ north == x_ centre) by reflexivity.
  assert (C : x_ centre == x_ above) by reflexivity.
  repeat (split; [assumption|]).
  exact (proj1 (segment_segment_2d_old_axis_aligned
                  (PR := Reference.predicates) (CP := Reference.collision)
                  (CS := Reference.constants)
                  (LC := LegacyReference.collaborators)
                  south north centre above Hc) A B C).
Defined.

End FurtherExamples.
